(** * WAF binding export for HTTP load balancers: model and properties

    Shallow embedding of [f5_lb_waf_export.py].  The script walks the JSON
    documents returned by the control-plane API, so the model works on
    untyped JSON values with Python's dynamic semantics: an operation applied
    to a value of the wrong shape raises, and the exception aborts the run.
    HTTP traffic is explicit state passing over an arbitrary server, with a
    log of every request issued.

    Not modelled: the parsing of the command line and the check of the API
    token that precede the first request, the diagnostic output printed
    under [--debug] (it reads the response again inside its own
    [try]/[except Exception] and cannot change the control flow), and the
    CSV writer that consumes the rows.  Strings are byte strings; the only
    place where Python would split a string into code points is the
    iteration over a string, whose elements the script never inspects. *)

From Stdlib Require Import ZArith List String Ascii Bool Lia.
From Stdlib Require Import Floats.SpecFloat.
Import ListNotations.

Local Open Scope string_scope.
Local Open Scope Z_scope.
Set Warnings "-register-all".

(** ** Values produced by [resp.json()] *)

(** [json.loads] yields [None], booleans, integers, floats (including the
    non-finite ones), strings, lists and dictionaries keyed by strings.
    A dictionary keeps its insertion order, which [items()] exposes, so it
    is an association list.  A parsed dictionary binds each key once;
    lookups take the first binding, and no property below relies on keys
    being unique. *)
Inductive value : Type :=
| VNone
| VBool (b : bool)
| VInt (z : Z)
| VFloat (f : spec_float)
| VStr (s : string)
| VList (l : list value)
| VDict (d : list (string * value)).

(** Exceptions the script can raise or let through. *)
Inductive exn : Type :=
| AttributeError
| TypeError
| KeyError (k : string)
| HTTPError (status_code : Z)
| RequestException (msg : string)
| JSONDecodeError.

Inductive result (A : Type) : Type :=
| Ok (a : A)
| Err (e : exn).
Arguments Ok {A} a.
Arguments Err {A} e.

Definition is_err {A} (r : result A) : bool :=
  match r with Ok _ => false | Err _ => true end.

(** ** Python's dynamic operations on values *)

Module Py.

(** [bool(v)] *)
Definition truthy (v : value) : bool :=
  match v with
  | VNone => false
  | VBool b => b
  | VInt z => negb (z =? 0)
  | VFloat (S754_zero _) => false
  | VFloat _ => true
  | VStr s => negb (s =? "")%string
  | VList l => match l with [] => false | _ => true end
  | VDict d => match d with [] => false | _ => true end
  end.

(** [a or b] *)
Definition or_else (a b : value) : value := if truthy a then a else b.

Definition str_or (a b : string) : string :=
  if (a =? "")%string then b else a.

Fixpoint assoc (k : string) (d : list (string * value)) : option value :=
  match d with
  | [] => None
  | (k', v) :: d' => if (k =? k')%string then Some v else assoc k d'
  end.

Definition has_key (k : string) (d : list (string * value)) : bool :=
  match assoc k d with Some _ => true | None => false end.

Fixpoint remove_key (k : string) (d : list (string * value))
  : list (string * value) :=
  match d with
  | [] => []
  | (k', v) :: d' =>
      if (k =? k')%string then remove_key k d' else (k', v) :: remove_key k d'
  end.

(** [v.get(k, default)]: only dictionaries have a [get] method. *)
Definition get (v : value) (k : string) (default : value) : result value :=
  match v with
  | VDict d => Ok (match assoc k d with Some x => x | None => default end)
  | _ => Err AttributeError
  end.

Definition is_str (k : string) (v : value) : bool :=
  match v with VStr s => (s =? k)%string | _ => false end.

Definition substring_of (k s : string) : bool :=
  match index 0 k s with Some _ => true | None => false end.

(** [k in v] for a string [k]: key membership in a dictionary, element
    membership in a list, substring test on a string; the other values
    are not iterable. *)
Definition contains (k : string) (v : value) : result bool :=
  match v with
  | VDict d => Ok (has_key k d)
  | VList l => Ok (existsb (is_str k) l)
  | VStr s => Ok (substring_of k s)
  | _ => Err TypeError
  end.

(** [v[k]] for a string [k] *)
Definition getitem (v : value) (k : string) : result value :=
  match v with
  | VDict d => match assoc k d with Some x => Ok x | None => Err (KeyError k) end
  | _ => Err TypeError
  end.

Fixpoint chars (s : string) : list value :=
  match s with
  | EmptyString => []
  | String c s' => VStr (String c EmptyString) :: chars s'
  end.

(** The elements a [for] loop visits. *)
Definition iter (v : value) : result (list value) :=
  match v with
  | VList l => Ok l
  | VDict d => Ok (map (fun kv => VStr (fst kv)) d)
  | VStr s => Ok (chars s)
  | _ => Err TypeError
  end.

(** [v.items()] *)
Definition items (v : value) : result (list (string * value)) :=
  match v with
  | VDict d => Ok d
  | _ => Err AttributeError
  end.

(** [v += s] for a string [s]: concatenation on a string, [extend] with
    the characters of [s] on a list. *)
Definition iadd_str (v : value) (s : string) : result value :=
  match v with
  | VStr a => Ok (VStr (a ++ s))
  | VList l => Ok (VList (l ++ chars s))
  | _ => Err TypeError
  end.

(** [sep.join(parts)] *)
Fixpoint join (sep : string) (parts : list string) : string :=
  match parts with
  | [] => ""
  | [p] => p
  | p :: ps => p ++ sep ++ join sep ps
  end.

End Py.

(** ** The transport collaborator *)

(** What the server answers to one GET: a status line and a body that may
    or may not parse as JSON. *)
Record response : Type := {
  status_code : Z;
  json_body : option value
}.

(** [requests.get] either returns a response or raises an exception of the
    transport layer (connection refused, timeout, ...), none of which is an
    [HTTPError]. *)
Inductive reply : Type :=
| Raises (msg : string)
| Responds (r : response).

(** Everything the script takes from its surroundings: the command line,
    the formatting of a value inside an f-string, and a server whose
    answers may depend on its own evolving state. *)
Class Host : Type := {
  TENANT : string;
  NAMESPACE : string;
  format : value -> string;
  world : Type;
  requests_get : string -> world -> reply * world
}.

Section Monad.

Context `{Host}.

(** The server, and the requests issued so far with their answers,
    oldest first. *)
Record state : Type := {
  server : world;
  log : list (string * reply)
}.

(** Computations that talk to the server and may raise. *)
Definition M (A : Type) : Type := state -> result A * state.

Definition ret {A} (a : A) : M A := fun st => (Ok a, st).

Definition raise {A} (e : exn) : M A := fun st => (Err e, st).

Definition bind {A B} (m : M A) (k : A -> M B) : M B :=
  fun st =>
    match m st with
    | (Ok a, st') => k a st'
    | (Err e, st') => (Err e, st')
    end.

Definition lift {A} (r : result A) : M A :=
  match r with Ok a => ret a | Err e => raise e end.

(** [try: body  except requests.exceptions.HTTPError: handler], where the
    handler reads [resp.status_code] of the response that raised. *)
Definition try_except_HTTPError {A} (body : M A) (handler : Z -> M A) : M A :=
  fun st =>
    match body st with
    | (Err (HTTPError code), st') => handler code st'
    | other => other
    end.

(** [for x in l: acc = body(x, acc)] *)
Fixpoint for_each {A S} (body : A -> S -> M S) (l : list A) (acc : S) : M S :=
  match l with
  | [] => ret acc
  | x :: xs => bind (body x acc) (for_each body xs)
  end.

End Monad.

Declare Scope script_scope.
Delimit Scope script_scope with script.
Notation "x <- m ;; k" := (bind m (fun x => k))
  (at level 61, m at next level, right associativity) : script_scope.
Notation "' p <- m ;; k" := (bind m (fun p => k))
  (at level 61, p pattern, m at next level, right associativity) : script_scope.
Local Open Scope script_scope.

(** One CSV record. *)
Record row : Type := {
  row_namespace : value;
  row_lb_name : value;
  row_route : string;
  row_waf_name : value;
  row_waf_mode : string
}.

Section Script.

Context `{Host}.

Definition API_BASE : string :=
  "https://" ++ TENANT ++ ".console.ves.volterra.io/api".

(** [requests.get(url, headers=HEADERS)] *)
Definition http_get (url : string) : M response :=
  fun st =>
    let (rp, w) := requests_get url (server st) in
    let st' := {| server := w; log := log st ++ [(url, rp)] |} in
    match rp with
    | Raises msg => (Err (RequestException msg), st')
    | Responds r => (Ok r, st')
    end.

(** [resp.raise_for_status()] *)
Definition raise_for_status (resp : response) : M unit :=
  if (400 <=? status_code resp) && (status_code resp <? 600)
  then raise (HTTPError (status_code resp))
  else ret tt.

(** [resp.json()] *)
Definition json (resp : response) : M value :=
  match json_body resp with
  | Some v => ret v
  | None => raise JSONDecodeError
  end.

(** [[f(x) for x in l]] *)
Fixpoint comprehension {A B} (f : A -> result (option B)) (l : list A)
  : result (list B) :=
  match l with
  | [] => Ok []
  | x :: xs =>
      match f x with
      | Err e => Err e
      | Ok o =>
          match comprehension f xs with
          | Err e => Err e
          | Ok ys => Ok (match o with Some y => y :: ys | None => ys end)
          end
      end
  end.

Definition get_namespaces : M (list value) :=
  if negb (NAMESPACE =? "system")%string then ret [VStr NAMESPACE]
  else
    let url := API_BASE ++ "/web/namespaces" in
    resp <- http_get url ;;
    _ <- raise_for_status resp ;;
    body <- json resp ;;
    items <- lift (Py.get body "items" (VList [])) ;;
    nss <- lift (Py.iter items) ;;
    lift (comprehension
            (fun ns => match Py.getitem ns "name" with
                       | Ok n => Ok (Some n)
                       | Err e => Err e
                       end) nss).

Definition get_http_loadbalancers (namespace : value) : M (list value) :=
  let url := API_BASE ++ "/config/namespaces/" ++ format namespace
             ++ "/http_loadbalancers" in
  resp <- http_get url ;;
  _ <- raise_for_status resp ;;
  body <- json resp ;;
  items <- lift (Py.get body "items" (VList [])) ;;
  lbs <- lift (Py.iter items) ;;
  lift (comprehension
          (fun lb => match Py.get lb "name" VNone with
                     | Ok n => Ok (if Py.truthy n then Some n else None)
                     | Err e => Err e
                     end) lbs).

Definition get_lb_details (namespace lb_name : value) : M value :=
  let url := API_BASE ++ "/config/namespaces/" ++ format namespace
             ++ "/http_loadbalancers/" ++ format lb_name in
  resp <- http_get url ;;
  _ <- raise_for_status resp ;;
  json resp.

(** Returns the pair [(details_dict, source_namespace)].  A successful
    [try] block returns from the function ([Some]); a handled 404 falls
    through to the code after it ([None]). *)
Definition get_app_firewall_details (namespace waf_name : value)
  : M (value * value) :=
  if negb (Py.truthy waf_name) then ret (VDict [], VNone)
  else
    let url := API_BASE ++ "/config/namespaces/" ++ format namespace
               ++ "/app_firewalls/" ++ format waf_name in
    found <- try_except_HTTPError
               (resp <- http_get url ;;
                _ <- raise_for_status resp ;;
                body <- json resp ;;
                ret (Some (body, namespace)))
               (fun code =>
                  if negb (code =? 404) then raise (HTTPError code)
                  else ret None) ;;
    match found with
    | Some r => ret r
    | None =>
        if negb (Py.is_str "shared" namespace) then
          let url := API_BASE ++ "/config/namespaces/shared/app_firewalls/"
                     ++ format waf_name in
          found <- try_except_HTTPError
                     (resp <- http_get url ;;
                      _ <- raise_for_status resp ;;
                      body <- json resp ;;
                      ret (Some (body, VStr "shared")))
                     (fun code =>
                        if negb (code =? 404) then raise (HTTPError code)
                        else ret None) ;;
          match found with
          | Some r => ret r
          | None => ret (VDict [], VNone)
          end
        else ret (VDict [], VNone)
    end.

Definition get_waf_mode (app_firewall_details : value) : result string :=
  if negb (Py.truthy app_firewall_details) then Ok ""
  else
    match Py.get app_firewall_details "spec" (VDict []) with
    | Err e => Err e
    | Ok spec =>
        match Py.contains "monitoring" spec with
        | Err e => Err e
        | Ok true => Ok "monitoring"
        | Ok false =>
            match Py.contains "blocking" spec with
            | Err e => Err e
            | Ok true => Ok "blocking"
            | Ok false => Ok ""
            end
        end
    end.

(** *** [extract_waf_rows]

    The function is one block of code in the source; the model names its
    three stages so that properties can refer to them. *)

(** Lines 132-141: the default binding, before the [or] fall-backs that
    the row construction applies to it. *)
Definition default_binding (namespace spec : value) : M (value * string) :=
  disabled <- lift (Py.contains "disable_waf" spec) ;;
  unset <- (if disabled then ret true
            else present <- lift (Py.contains "app_firewall" spec) ;;
                 ret (negb present)) ;;
  if unset then ret (VStr "waf_disabled", "NA")
  else
    app_firewall <- lift (Py.get spec "app_firewall" (VDict [])) ;;
    default_waf_name <- lift (Py.get app_firewall "name" VNone) ;;
    '(default_waf_info, default_source_ns) <-
      (if Py.truthy default_waf_name
       then get_app_firewall_details namespace default_waf_name
       else ret (VDict [], VNone)) ;;
    default_waf_mode <- lift (get_waf_mode default_waf_info) ;;
    default_waf_name <-
      (if Py.is_str "shared" default_source_ns && Py.truthy default_waf_name
       then lift (Py.iadd_str default_waf_name " (shared)")
       else ret default_waf_name) ;;
    ret (default_waf_name, default_waf_mode).

(** Lines 156-162: the path descriptor of a route. *)
Definition route_path_of (simple_route : value) : result string :=
  match Py.get simple_route "path" (VDict []) with
  | Err e => Err e
  | Ok path_info =>
      if Py.truthy path_info then
        match Py.items path_info with
        | Err e => Err e
        | Ok kvs =>
            Ok (Py.join "; "
                  (map (fun kv => fst kv ++ "=" ++ format (snd kv)) kvs))
        end
      else Ok "NA"
  end.

(** Line 153: [route.get('simple_route') or {}] *)
Definition simple_route_of (route : value) : result value :=
  match Py.get route "simple_route" VNone with
  | Err e => Err e
  | Ok simple_route => Ok (Py.or_else simple_route (VDict []))
  end.

(** Line 154: [simple_route.get('advanced_options') or {}] *)
Definition advanced_options_of (simple_route : value) : result value :=
  match Py.get simple_route "advanced_options" VNone with
  | Err e => Err e
  | Ok advanced_options => Ok (Py.or_else advanced_options (VDict []))
  end.

(** Line 167: the truth value of
    ['app_firewall' in advanced_options and
     advanced_options['app_firewall'].get('name')]. *)
Definition names_override (advanced_options : value) : result bool :=
  match Py.contains "app_firewall" advanced_options with
  | Err e => Err e
  | Ok false => Ok false
  | Ok true =>
      match Py.getitem advanced_options "app_firewall" with
      | Err e => Err e
      | Ok app_firewall =>
          match Py.get app_firewall "name" VNone with
          | Err e => Err e
          | Ok name => Ok (Py.truthy name)
          end
      end
  end.

(** Lines 164-179: the binding of one route. *)
Definition route_binding (namespace default_waf_name : value)
  (default_waf_mode : string) (advanced_options : value)
  : M (value * string) :=
  disabled <- lift (Py.contains "disable_waf" advanced_options) ;;
  if disabled then ret (VStr "waf_disabled", "NA")
  else
    named <- lift (names_override advanced_options) ;;
    if named then
      app_firewall <- lift (Py.getitem advanced_options "app_firewall") ;;
      waf_name <- lift (Py.getitem app_firewall "name") ;;
      '(waf_info, source_ns) <- get_app_firewall_details namespace waf_name ;;
      if negb (Py.truthy waf_info) then ret (VStr "waf_disabled", "NA")
      else
        waf_mode <- lift (get_waf_mode waf_info) ;;
        waf_name <- (if Py.is_str "shared" source_ns
                     then lift (Py.iadd_str waf_name " (shared)")
                     else ret waf_name) ;;
        ret (waf_name, waf_mode)
    else
      ret (Py.or_else default_waf_name (VStr "waf_disabled"),
           Py.str_or default_waf_mode "NA").

(** Lines 153-187: the body of the loop over the routes. *)
Definition route_row (namespace lb_name default_waf_name : value)
  (default_waf_mode : string) (route : value) : M row :=
  simple_route <- lift (simple_route_of route) ;;
  advanced_options <- lift (advanced_options_of simple_route) ;;
  route_path <- lift (route_path_of simple_route) ;;
  '(waf_name, waf_mode) <-
    route_binding namespace default_waf_name default_waf_mode advanced_options ;;
  ret {| row_namespace := namespace;
         row_lb_name := lb_name;
         row_route := route_path;
         row_waf_name := waf_name;
         row_waf_mode := waf_mode |}.

(** Lines 143-149: the row of the default binding. *)
Definition default_row (namespace lb_name default_waf_name : value)
  (default_waf_mode : string) : row :=
  {| row_namespace := namespace;
     row_lb_name := lb_name;
     row_route := "NA";
     row_waf_name := Py.or_else default_waf_name (VStr "waf_disabled");
     row_waf_mode := Py.str_or default_waf_mode "NA" |}.

Definition extract_waf_rows (lb_details : value) : M (list row) :=
  let rows := [] in
  if negb (Py.truthy lb_details) then ret rows
  else
    metadata <- lift (Py.get lb_details "metadata" (VDict [])) ;;
    namespace <- lift (Py.get metadata "namespace" (VStr "")) ;;
    metadata <- lift (Py.get lb_details "metadata" (VDict [])) ;;
    lb_name <- lift (Py.get metadata "name" (VStr "")) ;;
    spec <- lift (Py.get lb_details "spec" (VDict [])) ;;
    '(default_waf_name, default_waf_mode) <- default_binding namespace spec ;;
    let rows :=
      (rows ++ [default_row namespace lb_name default_waf_name
                  default_waf_mode])%list in
    routes <- lift (Py.get spec "routes" (VList [])) ;;
    routes <- lift (Py.iter routes) ;;
    for_each
      (fun route rows =>
         r <- route_row namespace lb_name default_waf_name default_waf_mode
                route ;;
         ret (rows ++ [r])%list)
      routes rows.

(** *** The main script, up to the rows handed to the CSV writer *)

(** Lines 199-201: the body of the loop over the load balancers of [ns]. *)
Definition export_lb (ns lb_name : value) (all_rows : list row)
  : M (list row) :=
  lb_details <- get_lb_details ns lb_name ;;
  lb_rows <- extract_waf_rows lb_details ;;
  ret (all_rows ++ lb_rows)%list.

(** Lines 197-201: the body of the loop over the namespaces. *)
Definition export_ns (ns : value) (all_rows : list row) : M (list row) :=
  lb_names <- get_http_loadbalancers ns ;;
  for_each (export_lb ns) lb_names all_rows.

(** Lines 194-201. *)
Definition main_script : M (list row) :=
  let all_rows := [] in
  nss <- get_namespaces ;;
  for_each export_ns nss all_rows.

End Script.

(** ** Vocabulary of the properties *)

Section Vocabulary.

Context `{Host}.

(** The two addresses at which a firewall is looked up. *)
Definition firewall_url (namespace waf_name : value) : string :=
  API_BASE ++ "/config/namespaces/" ++ format namespace
  ++ "/app_firewalls/" ++ format waf_name.

Definition shared_firewall_url (waf_name : value) : string :=
  API_BASE ++ "/config/namespaces/shared/app_firewalls/" ++ format waf_name.

(** What the server answers to [url] when asked in state [st], and the
    state that request leaves behind. *)
Definition reply_to (url : string) (st : state) : reply :=
  fst (requests_get url (server st)).

Definition after (url : string) (st : state) : state :=
  {| server := snd (requests_get url (server st));
     log := log st ++ [(url, reply_to url st)] |}.

Definition is_http_error (r : response) : bool :=
  (400 <=? status_code r) && (status_code r <? 600).

(** The answer is a 404. *)
Definition is_not_found (rp : reply) : bool :=
  match rp with
  | Raises _ => false
  | Responds r => status_code r =? 404
  end.

(** The answer delivers the document [body]. *)
Definition delivers (rp : reply) (body : value) : Prop :=
  exists r, rp = Responds r /\ is_http_error r = false /\ json_body r = Some body.

(** The exception behind an answer that is a failure other than 404: an
    exception of the transport, an error status, or a body that is not
    JSON. *)
Definition failure_of (rp : reply) : option exn :=
  match rp with
  | Raises msg => Some (RequestException msg)
  | Responds r =>
      if is_http_error r then
        if status_code r =? 404 then None else Some (HTTPError (status_code r))
      else
        match json_body r with
        | Some _ => None
        | None => Some JSONDecodeError
        end
  end.

(** How one [try] block of the locator ends on a given answer: with an
    exception, with the pair to return, or with nothing (a handled 404). *)
Definition attempt (rp : reply) (source_ns : value)
  : result (option (value * value)) :=
  match rp with
  | Raises msg => Err (RequestException msg)
  | Responds r =>
      if is_http_error r then
        if status_code r =? 404 then Ok None else Err (HTTPError (status_code r))
      else
        match json_body r with
        | Some body => Ok (Some (body, source_ns))
        | None => Err JSONDecodeError
        end
  end.

(** How [requests.get] followed by [raise_for_status] and [json] ends on
    a given answer. *)
Definition fetch_outcome (rp : reply) : result value :=
  match rp with
  | Raises msg => Err (RequestException msg)
  | Responds r =>
      if is_http_error r then Err (HTTPError (status_code r))
      else
        match json_body r with
        | Some body => Ok body
        | None => Err JSONDecodeError
        end
  end.

(** Every request a computation issues is appended to the log, and an
    answer that is a failure other than 404 ends the computation with the
    exception of that failure. *)
Definition propagates_failures {A} (m : M A) : Prop :=
  forall st,
  exists new,
    log (snd (m st)) = (log st ++ new)%list
    /\ forall url rp e,
         In (url, rp) new -> failure_of rp = Some e -> fst (m st) = Err e.

(** The load balancer names a default firewall: its [spec] has an
    [app_firewall] entry. *)
Definition has_default_reference (lb_details : value) : Prop :=
  exists spec,
    Py.get lb_details "spec" (VDict []) = Ok spec
    /\ Py.contains "app_firewall" spec = Ok true.

(** The routes the loop of [extract_waf_rows] visits. *)
Definition routes_of (lb_details : value) : result (list value) :=
  match Py.get lb_details "spec" (VDict []) with
  | Err e => Err e
  | Ok spec =>
      match Py.get spec "routes" (VList []) with
      | Err e => Err e
      | Ok routes => Py.iter routes
      end
  end.

Definition route_advanced_options (route : value) : result value :=
  match simple_route_of route with
  | Err e => Err e
  | Ok simple_route => advanced_options_of simple_route
  end.

(** The advanced options of the route carry a disable marker. *)
Definition has_disable_marker (route : value) : Prop :=
  exists ao,
    route_advanced_options route = Ok ao
    /\ Py.contains "disable_waf" ao = Ok true.

(** The advanced options of the route name an override firewall. *)
Definition has_named_override (route : value) : Prop :=
  exists ao,
    route_advanced_options route = Ok ao /\ names_override ao = Ok true.

(** The (firewall name, mode) pair of a row. *)
Definition binding_of (r : row) : value * string :=
  (row_waf_name r, row_waf_mode r).

(** [[f(x) for x in l]] for an [f] that talks to the server. *)
Fixpoint map_m {A B} (f : A -> M B) (l : list A) : M (list B) :=
  match l with
  | [] => ret []
  | x :: xs => y <- f x ;; ys <- map_m f xs ;; ret (y :: ys)
  end.

(** The export as the specification words it: the row sequences of the
    load balancers, concatenated in namespace order and, within a
    namespace, in listing order. *)
Definition export_by_concatenation : M (list row) :=
  nss <- get_namespaces ;;
  per_ns <- map_m
              (fun ns =>
                 lb_names <- get_http_loadbalancers ns ;;
                 per_lb <- map_m
                             (fun lb_name =>
                                lb_details <- get_lb_details ns lb_name ;;
                                extract_waf_rows lb_details)
                             lb_names ;;
                 ret (List.concat per_lb))
              nss ;;
  ret (List.concat per_ns).

End Vocabulary.

(** ** Well-formed configurations *)

(** The data model the control plane documents for a load balancer, and
    the JSON document it serialises to.  The script accepts any JSON; these
    are the documents on which none of its operations raises. *)
Record RouteConfig : Type := {
  rc_path : list (string * string);
  rc_disable_waf : bool;
  rc_app_firewall : option string
}.

Record LoadBalancerConfig : Type := {
  lbc_namespace : string;
  lbc_name : string;
  lbc_disable_waf : bool;
  lbc_app_firewall : option string;
  lbc_routes : list RouteConfig
}.

Definition encode_waf_choice (disable_waf : bool) (app_firewall : option string)
  : list (string * value) :=
  ((if disable_waf then [("disable_waf", VDict [])] else [])
   ++ match app_firewall with
      | Some name => [("app_firewall", VDict [("name", VStr name)])]
      | None => []
      end)%list.

Definition encode_route (r : RouteConfig) : value :=
  VDict
    [("simple_route",
      VDict
        [("path", VDict (map (fun kv => (fst kv, VStr (snd kv))) (rc_path r)));
         ("advanced_options",
          VDict (encode_waf_choice (rc_disable_waf r) (rc_app_firewall r)))])].

Definition encode_lb (lb : LoadBalancerConfig) : value :=
  VDict
    [("metadata",
      VDict [("name", VStr (lbc_name lb)); ("namespace", VStr (lbc_namespace lb))]);
     ("spec",
      VDict (("routes", VList (map encode_route (lbc_routes lb)))
             :: encode_waf_choice (lbc_disable_waf lb) (lbc_app_firewall lb)))].

Section Reliable.

Context `{Host}.

(** A server that never fails: every request is answered, with a 404 or
    with a document on which the mode classifier does not raise. *)
Definition reliable : Prop :=
  forall url w,
    match fst (requests_get url w) with
    | Raises _ => False
    | Responds r =>
        if is_http_error r then status_code r = 404
        else exists body mode,
               json_body r = Some body /\ get_waf_mode body = Ok mode
    end.

End Reliable.

(** ** Vocabulary of the properties of the requests *)

Section Requests.

Context `{Host}.

(** The addresses of the three listing calls. *)
Definition namespaces_url : string := API_BASE ++ "/web/namespaces".

Definition loadbalancers_url (namespace : value) : string :=
  API_BASE ++ "/config/namespaces/" ++ format namespace ++ "/http_loadbalancers".

Definition lb_details_url (namespace lb_name : value) : string :=
  API_BASE ++ "/config/namespaces/" ++ format namespace
  ++ "/http_loadbalancers/" ++ format lb_name.

(** The answer carries an error status, 404 included. *)
Definition error_status (rp : reply) : option Z :=
  match rp with
  | Raises _ => None
  | Responds r => if is_http_error r then Some (status_code r) else None
  end.

(** Every request the computation issues goes to an address in [P]. *)
Definition requests_only {A} (P : string -> Prop) (m : M A) : Prop :=
  forall st,
  exists new,
    log (snd (m st)) = (log st ++ new)%list
    /\ Forall (fun entry => P (fst entry)) new.

(** The computation issues at most [n] requests. *)
Definition requests_at_most {A} (n : nat) (m : M A) : Prop :=
  forall st,
  exists new,
    log (snd (m st)) = (log st ++ new)%list /\ (List.length new <= n)%nat.

(** An address at which a firewall is looked up on behalf of [namespace]:
    in that namespace or in [shared]. *)
Definition firewall_lookup_of (namespace : value) (url : string) : Prop :=
  exists waf_name,
    url = firewall_url namespace waf_name \/ url = shared_firewall_url waf_name.

(** The namespace and the name under which [extract_waf_rows] reports a
    configuration. *)
Definition reported_namespace (lb_details : value) : result value :=
  match Py.get lb_details "metadata" (VDict []) with
  | Err e => Err e
  | Ok metadata => Py.get metadata "namespace" (VStr "")
  end.

Definition reported_name (lb_details : value) : result value :=
  match Py.get lb_details "metadata" (VDict []) with
  | Err e => Err e
  | Ok metadata => Py.get metadata "name" (VStr "")
  end.

(** The items of a listing response. *)
Definition listed_items (body : value) : result (list value) :=
  match Py.get body "items" (VList []) with
  | Err e => Err e
  | Ok items => Py.iter items
  end.

(** The name of a listed load balancer, [None] when it has none. *)
Definition listed_name (lb : value) : value :=
  match Py.get lb "name" VNone with
  | Ok name => name
  | Err _ => VNone
  end.

(** The firewall a route names, read as line 168 reads it. *)
Definition override_name (advanced_options : value) : result value :=
  match Py.getitem advanced_options "app_firewall" with
  | Err e => Err e
  | Ok app_firewall => Py.getitem app_firewall "name"
  end.

(** The mode field of a row is one of the four strings the script
    writes. *)
Definition known_mode (mode : string) : Prop :=
  mode = "NA" \/ mode = "monitoring" \/ mode = "blocking" \/ mode = "".

End Requests.

(** ** Fixtures: a server that answers from a fixed table *)

(** A server without state of its own: each URL has one answer, and a URL
    that is not listed is answered with 404. *)
Definition table : Type := list (string * reply).

Definition not_found : reply :=
  Responds {| status_code := 404; json_body := Some (VDict []) |}.

Definition found (body : value) : reply :=
  Responds {| status_code := 200; json_body := Some body |}.

Fixpoint answer (tbl : table) (url : string) : reply :=
  match tbl with
  | [] => not_found
  | (u, rp) :: tbl' => if (url =? u)%string then rp else answer tbl' url
  end.

(** Formatting of the values the fixtures put into URLs and paths; all of
    them are strings. *)
Definition format_str (v : value) : string :=
  match v with VStr s => s | _ => "" end.

Definition table_host (namespace : string) (tbl : table) : Host :=
  {| TENANT := "acme";
     NAMESPACE := namespace;
     format := format_str;
     world := unit;
     requests_get := fun url w => (answer tbl url, w) |}.

Definition start (namespace : string) (tbl : table)
  : @state (table_host namespace tbl) :=
  @Build_state (table_host namespace tbl) tt [].

(** The rows and the requests of a run against a table. *)
Definition run_on {A} (namespace : string) (tbl : table)
  (m : @M (table_host namespace tbl) A) : result A * list (string * reply) :=
  let (r, st) := m (start namespace tbl) in (r, log st).

Definition fw_url (ns name : string) : string :=
  "https://acme.console.ves.volterra.io/api/config/namespaces/" ++ ns
  ++ "/app_firewalls/" ++ name.

Definition lb_url (ns name : string) : string :=
  "https://acme.console.ves.volterra.io/api/config/namespaces/" ++ ns
  ++ "/http_loadbalancers/" ++ name.

Definition lb_list_url (ns : string) : string :=
  "https://acme.console.ves.volterra.io/api/config/namespaces/" ++ ns
  ++ "/http_loadbalancers".

Definition ns_list_url : string :=
  "https://acme.console.ves.volterra.io/api/web/namespaces".

Definition listing (names : list string) : value :=
  VDict [("items", VList (map (fun n => VDict [("name", VStr n)]) names))].

Definition lb_config (ns name : string) (spec : list (string * value)) : value :=
  VDict [("metadata", VDict [("name", VStr name); ("namespace", VStr ns)]);
         ("spec", VDict spec)].

Definition firewall (name : string) (spec : list (string * value)) : value :=
  VDict [("metadata", VDict [("name", VStr name)]); ("spec", VDict spec)].

Definition route (path : list (string * value))
  (advanced_options : list (string * value)) : value :=
  VDict [("simple_route",
          VDict [("path", VDict path);
                 ("advanced_options", VDict advanced_options)])].

(** A small tenant: two namespaces, three load balancers, one firewall
    in [ns1] and one in [shared]. *)
Definition tenant_lb1 : value :=
  lb_config "ns1" "lb1"
    [("app_firewall", VDict [("name", VStr "fw1")]);
     ("routes",
      VList [route [("prefix", VStr "/")] [];
             route [("prefix", VStr "/api")]
               [("app_firewall", VDict [("name", VStr "fw2")])];
             route [("regex", VStr "^/static/.*")] [("disable_waf", VDict [])];
             route [("prefix", VStr "/")] []])].

Definition tenant_lb2 : value :=
  lb_config "ns1" "lb2" [("disable_waf", VDict [])].

Definition tenant_lb3 : value :=
  lb_config "ns2" "lb3"
    [("app_firewall", VDict [("name", VStr "fw2")]);
     ("routes", VList [route [] []])].

Definition tenant : table :=
  [(ns_list_url, found (listing ["ns1"; "ns2"]));
   (lb_list_url "ns1", found (listing ["lb1"; "lb2"]));
   (lb_list_url "ns2", found (listing ["lb3"]));
   (lb_url "ns1" "lb1", found tenant_lb1);
   (lb_url "ns1" "lb2", found tenant_lb2);
   (lb_url "ns2" "lb3", found tenant_lb3);
   (fw_url "ns1" "fw1", found (firewall "fw1" [("monitoring", VDict [])]));
   (fw_url "shared" "fw2", found (firewall "fw2" [("blocking", VDict [])]))].

Definition mk_row (ns lb route_path name mode : string) : row :=
  {| row_namespace := VStr ns; row_lb_name := VStr lb; row_route := route_path;
     row_waf_name := VStr name; row_waf_mode := mode |}.

(** ** Running the monad *)

Section Facts.

Context `{Host}.

Lemma bind_ok {A B} (m : M A) (k : A -> M B) st a st1 :
  m st = (Ok a, st1) -> bind m k st = k a st1.
Proof. intros E. unfold bind. now rewrite E. Qed.

Lemma bind_err {A B} (m : M A) (k : A -> M B) st e st1 :
  m st = (Err e, st1) -> bind m k st = (Err e, st1).
Proof. intros E. unfold bind. now rewrite E. Qed.

Lemma bind_inv {A B} (m : M A) (k : A -> M B) st b st2 :
  bind m k st = (Ok b, st2) ->
  exists a st1, m st = (Ok a, st1) /\ k a st1 = (Ok b, st2).
Proof.
  unfold bind. destruct (m st) as [[a|e] st1]; intros E.
  - now exists a, st1.
  - discriminate.
Qed.

Lemma bind_bind {A B C} (m : M A) (k : A -> M B) (k' : B -> M C) st :
  bind (bind m k) k' st = bind m (fun a => bind (k a) k') st.
Proof. unfold bind. destruct (m st) as [[a|e] st1]; reflexivity. Qed.

Lemma lift_inv {A} (r : result A) st a st1 :
  lift r st = (Ok a, st1) -> r = Ok a /\ st1 = st.
Proof.
  destruct r as [x|e]; cbn; intros E; inversion E; auto.
Qed.

Lemma http_get_run url st :
  http_get url st =
    (match reply_to url st with
     | Raises msg => Err (RequestException msg)
     | Responds r => Ok r
     end, after url st).
Proof.
  unfold http_get, after, reply_to.
  destruct (requests_get url (server st)) as [[msg|r] w]; reflexivity.
Qed.

(** One [try] block of [get_app_firewall_details]. *)
Lemma try_block_run url source_ns st :
  try_except_HTTPError
    (resp <- http_get url ;;
     _ <- raise_for_status resp ;;
     body <- json resp ;;
     ret (Some (body, source_ns)))
    (fun code => if negb (code =? 404) then raise (HTTPError code) else ret None)
    st
  = (attempt (reply_to url st) source_ns, after url st).
Proof.
  unfold try_except_HTTPError, bind. rewrite http_get_run.
  destruct (reply_to url st) as [msg|r]; cbn; [reflexivity|].
  unfold raise_for_status, is_http_error.
  destruct ((400 <=? status_code r) && (status_code r <? 600)); cbn.
  - destruct (status_code r =? 404); reflexivity.
  - unfold json. destruct (json_body r); reflexivity.
Qed.

(** The locator, as a function of the answers it receives. *)
Lemma locate_run namespace waf_name st :
  get_app_firewall_details namespace waf_name st =
    if negb (Py.truthy waf_name) then (Ok (VDict [], VNone), st)
    else
      let st1 := after (firewall_url namespace waf_name) st in
      match attempt (reply_to (firewall_url namespace waf_name) st) namespace with
      | Err e => (Err e, st1)
      | Ok (Some r) => (Ok r, st1)
      | Ok None =>
          if Py.is_str "shared" namespace then (Ok (VDict [], VNone), st1)
          else
            let st2 := after (shared_firewall_url waf_name) st1 in
            match attempt (reply_to (shared_firewall_url waf_name) st1)
                    (VStr "shared") with
            | Err e => (Err e, st2)
            | Ok (Some r) => (Ok r, st2)
            | Ok None => (Ok (VDict [], VNone), st2)
            end
      end.
Proof.
  unfold get_app_firewall_details.
  destruct (Py.truthy waf_name); cbn [negb]; [|reflexivity].
  fold (firewall_url namespace waf_name).
  unfold bind at 1. rewrite try_block_run.
  destruct (attempt _ namespace) as [[r|]|e]; try reflexivity.
  destruct (Py.is_str "shared" namespace); cbn [negb]; [reflexivity|].
  fold (shared_firewall_url waf_name).
  unfold bind at 1. rewrite try_block_run.
  destruct (attempt _ (VStr "shared")) as [[r|]|e]; reflexivity.
Qed.

End Facts.

(** ** The firewall locator *)

Section Locator.

Context `{Host}.

Lemma is_not_found_attempt rp source_ns :
  is_not_found rp = true -> attempt rp source_ns = Ok None.
Proof.
  destruct rp as [msg|r]; cbn; [discriminate|].
  intros E. rewrite E. apply Z.eqb_eq in E.
  unfold is_http_error. rewrite E. reflexivity.
Qed.

(** C4.  The locator [get_app_firewall_details]: with an empty or absent
    name it returns the absent pair [({}, None)] and leaves the server and
    the request log untouched; when the lookup in the requesting namespace
    is answered with 404, it issues exactly one more request, to [shared],
    unless the requesting namespace is [shared] itself, in which case it
    issues none; and a 404 at the last lookup made yields the absent pair
    instead of an exception. *)
Theorem locate_contract (namespace waf_name : value) (st : state) :
  let url := firewall_url namespace waf_name in
  let shared_url := shared_firewall_url waf_name in
  let run := get_app_firewall_details namespace waf_name st in
  (Py.truthy waf_name = false -> run = (Ok (VDict [], VNone), st))
  /\
  (Py.truthy waf_name = true ->
   is_not_found (reply_to url st) = true ->
   (Py.is_str "shared" namespace = true ->
      fst run = Ok (VDict [], VNone)
      /\ snd run = after url st
      /\ log (snd run) = (log st ++ [(url, reply_to url st)])%list)
   /\
   (Py.is_str "shared" namespace = false ->
      snd run = after shared_url (after url st)
      /\ log (snd run) =
           (log st ++ [(url, reply_to url st);
                       (shared_url, reply_to shared_url (after url st))])%list
      /\ (is_not_found (reply_to shared_url (after url st)) = true ->
            fst run = Ok (VDict [], VNone)))).
Proof.
  cbv zeta. rewrite locate_run. split.
  - intros E. rewrite E. reflexivity.
  - intros E NF. rewrite E. cbn [negb].
    rewrite (is_not_found_attempt _ namespace NF). split.
    + intros S. rewrite S. cbn. auto.
    + intros S. rewrite S.
      destruct (attempt _ (VStr "shared")) as [[r|]|e] eqn:A; cbn [fst snd];
        (split; [reflexivity|split; [cbn; rewrite <- app_assoc; reflexivity|]]);
        intros NF2; rewrite (is_not_found_attempt _ _ NF2) in A;
        try discriminate; reflexivity.
Qed.

End Locator.

Lemma locate_contract_witness :
  let H := table_host "ns1" [] in
  let st := start "ns1" [] in
  let run := get_app_firewall_details (VStr "ns1") (VStr "fw1") st in
  let run_shared := get_app_firewall_details (VStr "shared") (VStr "fw1") st in
  get_app_firewall_details (VStr "ns1") (VStr "") st = (Ok (VDict [], VNone), st)
  /\ get_app_firewall_details (VStr "ns1") VNone st = (Ok (VDict [], VNone), st)
  /\ fst run = Ok (VDict [], VNone)
  /\ map fst (log (snd run)) = [fw_url "ns1" "fw1"; fw_url "shared" "fw1"]
  /\ fst run_shared = Ok (VDict [], VNone)
  /\ map fst (log (snd run_shared)) = [fw_url "shared" "fw1"].
Proof.
  cbv zeta.
  pose proof (locate_contract (H := table_host "ns1" [])) as C.
  split; [|split; [|split; [|split; [|split]]]].
  - exact (proj1 (C (VStr "ns1") (VStr "") (start "ns1" [])) eq_refl).
  - exact (proj1 (C (VStr "ns1") VNone (start "ns1" [])) eq_refl).
  - destruct (C (VStr "ns1") (VStr "fw1") (start "ns1" [])) as [_ C1].
    destruct (C1 eq_refl eq_refl) as [_ S].
    destruct (S eq_refl) as (_ & _ & R). exact (R eq_refl).
  - destruct (C (VStr "ns1") (VStr "fw1") (start "ns1" [])) as [_ C1].
    destruct (C1 eq_refl eq_refl) as [_ S].
    destruct (S eq_refl) as (_ & L & _). rewrite L. reflexivity.
  - destruct (C (VStr "shared") (VStr "fw1") (start "ns1" [])) as [_ C1].
    destruct (C1 eq_refl eq_refl) as [S _].
    destruct (S eq_refl) as (R & _ & _). exact R.
  - destruct (C (VStr "shared") (VStr "fw1") (start "ns1" [])) as [_ C1].
    destruct (C1 eq_refl eq_refl) as [S _].
    destruct (S eq_refl) as (_ & _ & L). rewrite L. reflexivity.
Defined.

(** ** The mode classifier *)

(** C6.  [get_waf_mode] returns the empty mode on an empty or absent
    input; on a firewall object whose [spec] block is a dictionary it
    returns [monitoring] when that block has a [monitoring] key, otherwise
    [blocking] when it has a [blocking] key, otherwise the empty mode; and
    whatever it returns is one of these three strings. *)
Theorem get_waf_mode_classifies (app_firewall_details : value) :
  (Py.truthy app_firewall_details = false ->
   get_waf_mode app_firewall_details = Ok "")
  /\
  (forall spec,
     Py.truthy app_firewall_details = true ->
     Py.get app_firewall_details "spec" (VDict []) = Ok (VDict spec) ->
     get_waf_mode app_firewall_details =
       Ok (if Py.has_key "monitoring" spec then "monitoring"
           else if Py.has_key "blocking" spec then "blocking"
           else ""))
  /\
  (forall mode,
     get_waf_mode app_firewall_details = Ok mode ->
     mode = "monitoring" \/ mode = "blocking" \/ mode = "").
Proof.
  unfold get_waf_mode. repeat split.
  - intros E. rewrite E. reflexivity.
  - intros spec T G. rewrite T, G. cbn.
    destruct (Py.has_key "monitoring" spec); [reflexivity|].
    destruct (Py.has_key "blocking" spec); reflexivity.
  - intros mode.
    destruct (Py.truthy app_firewall_details); cbn [negb].
    + destruct (Py.get app_firewall_details "spec" (VDict [])) as [spec|e];
        [|discriminate].
      destruct (Py.contains "monitoring" spec) as [[|]|e]; try discriminate.
      * intros E. inversion E. auto.
      * destruct (Py.contains "blocking" spec) as [[|]|e]; try discriminate;
          intros E; inversion E; auto.
    + intros E. inversion E. auto.
Qed.

Lemma get_waf_mode_classifies_witness :
  get_waf_mode (firewall "fw1" [("blocking", VDict []); ("monitoring", VDict [])])
    = Ok "monitoring"
  /\ get_waf_mode (firewall "fw2" [("blocking", VDict [])]) = Ok "blocking"
  /\ get_waf_mode (firewall "fw3" [("detection_settings", VDict [])]) = Ok ""
  /\ get_waf_mode (VDict []) = Ok "".
Proof.
  split; [|split; [|split]].
  - exact (proj1 (proj2 (get_waf_mode_classifies
                           (firewall "fw1" [("blocking", VDict []);
                                            ("monitoring", VDict [])])))
             [("blocking", VDict []); ("monitoring", VDict [])]
             eq_refl eq_refl).
  - exact (proj1 (proj2 (get_waf_mode_classifies
                           (firewall "fw2" [("blocking", VDict [])])))
             [("blocking", VDict [])] eq_refl eq_refl).
  - exact (proj1 (proj2 (get_waf_mode_classifies
                           (firewall "fw3" [("detection_settings", VDict [])])))
             [("detection_settings", VDict [])] eq_refl eq_refl).
  - exact (proj1 (get_waf_mode_classifies (VDict [])) eq_refl).
Defined.

(** ** Dictionaries *)

Lemma assoc_remove_key_same k d : Py.assoc k (Py.remove_key k d) = None.
Proof.
  induction d as [|[k' v] d IH]; cbn; [reflexivity|].
  destruct (k =? k')%string eqn:E; [exact IH|].
  cbn. rewrite E. exact IH.
Qed.

Lemma assoc_remove_key_other k k' d :
  k <> k' -> Py.assoc k (Py.remove_key k' d) = Py.assoc k d.
Proof.
  intros N. induction d as [|[k0 v] d IH]; cbn; [reflexivity|].
  destruct (k' =? k0)%string eqn:E.
  - apply String.eqb_eq in E. subst k0.
    destruct (k =? k')%string eqn:E'; [|exact IH].
    apply String.eqb_eq in E'. contradiction.
  - cbn. rewrite IH. reflexivity.
Qed.

(** ** The route resolver: one route *)

Section Route.

Context `{Host}.

Lemma route_binding_disabled namespace dn dm ao st :
  Py.contains "disable_waf" ao = Ok true ->
  route_binding namespace dn dm ao st = (Ok (VStr "waf_disabled", "NA"), st).
Proof. intros D. unfold route_binding. rewrite D. reflexivity. Qed.

Lemma route_binding_inherits namespace dn dm ao st :
  Py.contains "disable_waf" ao = Ok false ->
  names_override ao = Ok false ->
  route_binding namespace dn dm ao st =
    (Ok (Py.or_else dn (VStr "waf_disabled"), Py.str_or dm "NA"), st).
Proof.
  intros D N. unfold route_binding. rewrite D. cbn. rewrite N. reflexivity.
Qed.

Lemma names_override_unnamed ao fw :
  Py.assoc "app_firewall" ao = Some (VDict fw) ->
  Py.truthy (match Py.assoc "name" fw with Some n => n | None => VNone end)
    = false ->
  names_override (VDict ao) = Ok false.
Proof.
  intros A T. unfold names_override. cbn. unfold Py.has_key.
  rewrite A. cbn. rewrite T. reflexivity.
Qed.

Lemma names_override_removed ao :
  names_override (VDict (Py.remove_key "app_firewall" ao)) = Ok false.
Proof.
  unfold names_override. cbn. unfold Py.has_key.
  rewrite assoc_remove_key_same. reflexivity.
Qed.

(** C10.  A route whose advanced options carry an [app_firewall] entry
    with an empty or absent name is resolved exactly as the same route
    without that entry; its row is produced without any request to the
    server; and, the route carrying no disable marker, the row has the
    (firewall name, mode) pair of the default row. *)
Theorem unnamed_override_inherits
  (namespace lb_name default_waf_name : value) (default_waf_mode : string)
  (route simple_route : value) (ao fw : list (string * value)) (st : state) :
  simple_route_of route = Ok simple_route ->
  advanced_options_of simple_route = Ok (VDict ao) ->
  Py.assoc "app_firewall" ao = Some (VDict fw) ->
  Py.truthy (match Py.assoc "name" fw with Some n => n | None => VNone end)
    = false ->
  let run :=
    route_row namespace lb_name default_waf_name default_waf_mode route st in
  route_binding namespace default_waf_name default_waf_mode (VDict ao) st
    = route_binding namespace default_waf_name default_waf_mode
        (VDict (Py.remove_key "app_firewall" ao)) st
  /\ snd run = st
  /\ (Py.has_key "disable_waf" ao = false ->
      forall route_path,
        route_path_of simple_route = Ok route_path ->
        exists r,
          run = (Ok r, st)
          /\ row_route r = route_path
          /\ binding_of r =
               binding_of (default_row namespace lb_name default_waf_name
                             default_waf_mode)).
Proof.
  intros SR AO A T run.
  pose proof (names_override_unnamed ao fw A T) as N.
  assert (B : forall st0,
             route_binding namespace default_waf_name default_waf_mode
               (VDict ao) st0
             = (if Py.has_key "disable_waf" ao
                then Ok (VStr "waf_disabled", "NA")
                else Ok (Py.or_else default_waf_name (VStr "waf_disabled"),
                         Py.str_or default_waf_mode "NA"), st0)).
  { intros st0. destruct (Py.has_key "disable_waf" ao) eqn:D.
    - apply route_binding_disabled. cbn. now rewrite D.
    - apply route_binding_inherits; [cbn; now rewrite D|exact N]. }
  split; [|split].
  - rewrite B.
    assert (D : Py.has_key "disable_waf" (Py.remove_key "app_firewall" ao)
                = Py.has_key "disable_waf" ao).
    { unfold Py.has_key. rewrite assoc_remove_key_other; [reflexivity|].
      discriminate. }
    destruct (Py.has_key "disable_waf" ao) eqn:E.
    + rewrite route_binding_disabled; [reflexivity|]. cbn. now rewrite D.
    + rewrite route_binding_inherits; [reflexivity| |apply names_override_removed].
      cbn. now rewrite D.
  - subst run. unfold route_row, bind. rewrite SR. cbn. rewrite AO. cbn.
    destruct (route_path_of simple_route) as [p|e]; cbn; [|reflexivity].
    rewrite B. destruct (Py.has_key "disable_waf" ao); reflexivity.
  - intros D route_path P. subst run.
    unfold route_row, bind. rewrite SR. cbn. rewrite AO. cbn. rewrite P. cbn.
    rewrite B, D. cbn. eexists. split; [reflexivity|]. split; reflexivity.
Qed.

End Route.

Lemma unnamed_override_inherits_witness :
  let H := table_host "ns1" [] in
  let unnamed :=
    route [("prefix", VStr "/api")] [("app_firewall", VDict [("name", VStr "")])] in
  exists r,
    route_row (VStr "ns1") (VStr "lb1") (VStr "fw1") "monitoring" unnamed
      (start "ns1" []) = (Ok r, start "ns1" [])
    /\ row_route r = "prefix=/api"
    /\ binding_of r = (VStr "fw1", "monitoring").
Proof.
  cbv zeta.
  exact (proj2 (proj2
           (unnamed_override_inherits (H := table_host "ns1" [])
              (VStr "ns1") (VStr "lb1") (VStr "fw1") "monitoring"
              (route [("prefix", VStr "/api")]
                 [("app_firewall", VDict [("name", VStr "")])])
              (VDict [("path", VDict [("prefix", VStr "/api")]);
                      ("advanced_options",
                       VDict [("app_firewall", VDict [("name", VStr "")])])])
              [("app_firewall", VDict [("name", VStr "")])]
              [("name", VStr "")]
              (start "ns1" [])
              eq_refl eq_refl eq_refl eq_refl))
           eq_refl "prefix=/api" eq_refl).
Defined.

(** ** The route resolver: one load balancer *)

Section Resolver.

Context `{Host}.

Lemma extract_waf_rows_empty lb_details st :
  Py.truthy lb_details = false -> extract_waf_rows lb_details st = (Ok [], st).
Proof. intros E. unfold extract_waf_rows. rewrite E. reflexivity. Qed.

(** C9.  On an empty or absent load balancer configuration
    [extract_waf_rows] returns the empty row sequence, without a default
    row and without touching the server; the loop over the load balancers
    then goes on to the next one with the rows collected so far. *)
Theorem empty_config_yields_no_rows (lb_details : value) (st : state) :
  Py.truthy lb_details = false ->
  extract_waf_rows lb_details st = (Ok [], st)
  /\ forall ns lb_name lb_names all_rows st0,
       get_lb_details ns lb_name st0 = (Ok lb_details, st) ->
       for_each (export_lb ns) (lb_name :: lb_names) all_rows st0
       = for_each (export_lb ns) lb_names all_rows st.
Proof.
  intros E. split; [now apply extract_waf_rows_empty|].
  intros ns lb_name lb_names all_rows st0 G.
  cbn [for_each]. unfold bind at 1. unfold export_lb at 1.
  rewrite (bind_ok _ _ _ _ _ G).
  rewrite (bind_ok _ _ _ _ _ (extract_waf_rows_empty _ _ E)).
  unfold ret. rewrite app_nil_r. reflexivity.
Qed.

End Resolver.

Lemma empty_config_yields_no_rows_witness :
  let tbl := [(lb_url "ns1" "lb1", found (VDict []));
              (lb_url "ns1" "lb2", found (lb_config "ns1" "lb2" []))] in
  let H := table_host "ns1" tbl in
  fst (for_each (export_lb (VStr "ns1")) [VStr "lb1"; VStr "lb2"] []
         (start "ns1" tbl))
  = Ok [mk_row "ns1" "lb2" "NA" "waf_disabled" "NA"].
Proof.
  cbv zeta.
  set (tbl := [(lb_url "ns1" "lb1", found (VDict []));
               (lb_url "ns1" "lb2", found (lb_config "ns1" "lb2" []))]).
  destruct (empty_config_yields_no_rows (H := table_host "ns1" tbl)
              (VDict [])
              (snd (get_lb_details (VStr "ns1") (VStr "lb1") (start "ns1" tbl)))
              eq_refl) as [_ C].
  rewrite (C (VStr "ns1") (VStr "lb1") [VStr "lb2"] [] (start "ns1" tbl) eq_refl).
  reflexivity.
Defined.

(** ** Loops *)

Section Loops.

Context `{Host}.

(** A loop that extends an accumulator with what each element yields
    returns the accumulator followed by the concatenation of the yields. *)
Lemma for_each_extend {A B} (body : A -> list B -> M (list B))
  (f : A -> M (list B)) :
  (forall x acc st, body x acc st = (ys <- f x ;; ret (acc ++ ys)%list) st) ->
  forall l acc st,
    for_each body l acc st
    = (yss <- map_m f l ;; ret (acc ++ List.concat yss)%list) st.
Proof.
  intros B0. induction l as [|x xs IH]; intros acc st.
  - cbn. unfold bind, ret. cbn. now rewrite app_nil_r.
  - cbn [for_each map_m]. rewrite bind_bind.
    destruct (f x st) as [[ys|e] st1] eqn:F.
    + assert (E : body x acc st = (Ok (acc ++ ys)%list, st1)).
      { rewrite B0. now rewrite (bind_ok _ _ _ _ _ F). }
      rewrite (bind_ok _ _ _ _ _ E), (bind_ok _ _ _ _ _ F), IH, bind_bind.
      destruct (map_m f xs st1) as [[yss|e] st2] eqn:R.
      * rewrite !(bind_ok _ _ _ _ _ R). cbn. unfold ret.
        now rewrite app_assoc.
      * now rewrite !(bind_err _ _ _ _ _ R).
    + assert (E : body x acc st = (Err e, st1)).
      { rewrite B0. now rewrite (bind_err _ _ _ _ _ F). }
      now rewrite (bind_err _ _ _ _ _ E), (bind_err _ _ _ _ _ F).
Qed.

(** The same for a loop that appends one element per iteration. *)
Lemma for_each_append {A B} (f : A -> M B) l :
  forall acc st,
    for_each (fun x acc => y <- f x ;; ret (acc ++ [y])%list) l acc st
    = (ys <- map_m f l ;; ret (acc ++ ys)%list) st.
Proof.
  induction l as [|x xs IH]; intros acc st.
  - cbn. unfold bind, ret. cbn. now rewrite app_nil_r.
  - cbn [for_each map_m]. rewrite !bind_bind.
    destruct (f x st) as [[y|e] st1] eqn:F.
    + rewrite !(bind_ok _ _ _ _ _ F). cbn. rewrite IH, bind_bind.
      destruct (map_m f xs st1) as [[ys|e] st2] eqn:R.
      * rewrite !(bind_ok _ _ _ _ _ R). cbn. unfold ret.
        now rewrite <- app_assoc.
      * now rewrite !(bind_err _ _ _ _ _ R).
    + now rewrite !(bind_err _ _ _ _ _ F).
Qed.

(** Each element of the result of [map_m] comes from the element at the
    same position. *)
Lemma map_m_inv {A B} (f : A -> M B) l :
  forall st ys st',
    map_m f l st = (Ok ys, st') ->
    Forall2 (fun x y => exists s s', f x s = (Ok y, s')) l ys.
Proof.
  induction l as [|x xs IH]; intros st ys st' E.
  - cbn in E. inversion E. constructor.
  - cbn [map_m] in E.
    apply bind_inv in E. destruct E as (y & st1 & F & E).
    apply bind_inv in E. destruct E as (ys' & st2 & M0 & E).
    inversion E; subst. constructor; [now exists st, st1|].
    eapply IH; eassumption.
Qed.

End Loops.

(** ** Taking successful runs apart *)

(** Take a successful [x <- m ;; k] apart: [m] returned [x] and left
    state [s] (hypothesis [Ex]); [E] becomes the run of [k x]. *)
Ltac invert_bind E x s Ex :=
  apply bind_inv in E; destruct E as (x & s & Ex & E).

(** The same when [m] is a pure operation, which leaves the state alone. *)
Ltac invert_pure E x Ex :=
  let s := fresh "s" in
  let E' := fresh "E" in
  apply bind_inv in E; destruct E as (x & s & E' & E);
  apply lift_inv in E'; destruct E' as [Ex ->].

(** ** The route resolver: the rows of one load balancer *)

Section Rows.

Context `{Host}.

(** A successful run of [extract_waf_rows] on a non-empty configuration,
    taken apart: the default binding is resolved first, then the routes
    are resolved one after the other, each against that binding. *)
Lemma extract_waf_rows_inv lb_details st rows st' :
  Py.truthy lb_details = true ->
  extract_waf_rows lb_details st = (Ok rows, st') ->
  exists metadata namespace lb_name spec dn dm routes rs st1,
    Py.get lb_details "metadata" (VDict []) = Ok metadata
    /\ Py.get metadata "namespace" (VStr "") = Ok namespace
    /\ Py.get metadata "name" (VStr "") = Ok lb_name
    /\ Py.get lb_details "spec" (VDict []) = Ok spec
    /\ default_binding namespace spec st = (Ok (dn, dm), st1)
    /\ routes_of lb_details = Ok routes
    /\ map_m (route_row namespace lb_name dn dm) routes st1 = (Ok rs, st')
    /\ rows = default_row namespace lb_name dn dm :: rs.
Proof.
  intros T E. unfold extract_waf_rows in E. rewrite T in E. cbn [negb] in E.
  invert_pure E metadata Em.
  invert_pure E namespace En.
  invert_pure E metadata' Em'.
  invert_pure E lb_name El.
  invert_pure E spec Es.
  invert_bind E d st1 Ed. destruct d as [dn dm].
  invert_pure E routes Er.
  invert_pure E routes' Er'.
  rewrite for_each_append in E.
  invert_bind E rs st2 Ers. inversion E; subst.
  rewrite Em in Em'. inversion Em'; subst.
  exists metadata', namespace, lb_name, spec, dn, dm, routes', rs, st1.
  repeat (split; [eassumption|]).
  split; [|split; [eassumption|reflexivity]].
  unfold routes_of. rewrite Es, Er. exact Er'.
Qed.

Lemma bind_ext {A B} (m : M A) (k k' : A -> M B) st :
  (forall a s, k a s = k' a s) -> bind m k st = bind m k' st.
Proof.
  intros E. unfold bind. destruct (m st) as [[a|e] st1]; [apply E|reflexivity].
Qed.

Lemma export_lb_extends ns lb_name all_rows st :
  export_lb ns lb_name all_rows st
  = (lb_rows <- (lb_details <- get_lb_details ns lb_name ;;
                 extract_waf_rows lb_details) ;;
     ret (all_rows ++ lb_rows)%list) st.
Proof. unfold export_lb. now rewrite bind_bind. Qed.

Lemma export_ns_extends ns all_rows st :
  export_ns ns all_rows st
  = (ns_rows <- (lb_names <- get_http_loadbalancers ns ;;
                 per_lb <- map_m
                             (fun lb_name =>
                                lb_details <- get_lb_details ns lb_name ;;
                                extract_waf_rows lb_details)
                             lb_names ;;
                 ret (List.concat per_lb)) ;;
     ret (all_rows ++ ns_rows)%list) st.
Proof.
  unfold export_ns. rewrite bind_bind. apply bind_ext. intros lb_names s.
  rewrite (for_each_extend _ _ (export_lb_extends ns)). now rewrite bind_bind.
Qed.

(** *** Well-formed configurations on a reliable server *)

Lemma attempt_reliable url st label :
  reliable ->
  attempt (reply_to url st) label = Ok None
  \/ exists body mode,
       attempt (reply_to url st) label = Ok (Some (body, label))
       /\ get_waf_mode body = Ok mode.
Proof.
  intros R. specialize (R url (server st)). unfold reply_to.
  destruct (fst (requests_get url (server st))) as [msg|r]; [contradiction|].
  cbn. destruct (is_http_error r).
  - left. rewrite R. reflexivity.
  - destruct R as (body & mode & J & G). right. exists body, mode.
    rewrite J. auto.
Qed.

Lemma locate_reliable namespace waf_name st :
  reliable ->
  exists info source_ns mode st',
    get_app_firewall_details namespace waf_name st = (Ok (info, source_ns), st')
    /\ get_waf_mode info = Ok mode.
Proof.
  intros R. rewrite locate_run.
  destruct (Py.truthy waf_name); cbn [negb].
  2:{ now exists (VDict []), VNone, "", st. }
  cbv zeta.
  destruct (attempt_reliable (firewall_url namespace waf_name) st namespace R)
    as [A|(body & mode & A & G)]; rewrite A.
  - destruct (Py.is_str "shared" namespace).
    { now exists (VDict []), VNone, "", (after (firewall_url namespace waf_name) st). }
    destruct (attempt_reliable (shared_firewall_url waf_name)
                (after (firewall_url namespace waf_name) st) (VStr "shared") R)
      as [A2|(body & mode & A2 & G)]; rewrite A2.
    + now eexists (VDict []), VNone, "", _.
    + now eexists body, (VStr "shared"), mode, _.
  - now eexists body, namespace, mode, _.
Qed.

Lemma map_m_total {A B} (f : A -> M B) l :
  (forall x st, In x l -> exists y st', f x st = (Ok y, st')) ->
  forall st,
  exists ys st',
    map_m f l st = (Ok ys, st') /\ List.length ys = List.length l.
Proof.
  induction l as [|x xs IH]; intros F st.
  - now exists [], st.
  - destruct (F x st (or_introl eq_refl)) as (y & st1 & Fx).
    destruct (IH (fun x' s I => F x' s (or_intror I)) st1) as (ys & st2 & Fs & L).
    exists (y :: ys), st2. cbn [map_m].
    rewrite (bind_ok _ _ _ _ _ Fx), (bind_ok _ _ _ _ _ Fs).
    split; [reflexivity|]. cbn. now rewrite L.
Qed.

Lemma default_binding_total namespace routes disable_waf app_firewall st :
  reliable ->
  exists dn dm st1,
    default_binding namespace
      (VDict (("routes", routes) :: encode_waf_choice disable_waf app_firewall))
      st
    = (Ok (dn, dm), st1).
Proof.
  intros R. unfold default_binding.
  destruct disable_waf, app_firewall as [n|];
    try (now eexists _, _, _).
  cbn -[get_app_firewall_details get_waf_mode].
  destruct (n =? "")%string; cbn [negb]; [now eexists _, _, _|].
  destruct (locate_reliable namespace (VStr n) st R)
    as (info & source_ns & mode & st' & E & G).
  rewrite (bind_ok _ _ _ _ _ E), G. cbn [lift].
  rewrite andb_true_r.
  destruct (Py.is_str "shared" source_ns); now eexists _, _, _.
Qed.

Lemma route_binding_total namespace dn dm disable_waf app_firewall st :
  reliable ->
  exists b st',
    route_binding namespace dn dm
      (VDict (encode_waf_choice disable_waf app_firewall)) st
    = (Ok b, st').
Proof.
  intros R. unfold route_binding.
  destruct disable_waf, app_firewall as [n|]; try (now eexists _, _).
  cbn -[get_app_firewall_details get_waf_mode].
  destruct (n =? "")%string; cbn [negb]; [now eexists _, _|].
  cbn -[get_app_firewall_details get_waf_mode].
  destruct (locate_reliable namespace (VStr n) st R)
    as (info & source_ns & mode & st' & E & G).
  rewrite (bind_ok _ _ _ _ _ E).
  destruct (Py.truthy info); cbn [negb]; [|now eexists _, _].
  rewrite G. cbn [lift].
  destruct (Py.is_str "shared" source_ns); now eexists _, _.
Qed.

Lemma route_row_total namespace lb_name dn dm r st :
  reliable ->
  exists rw st',
    route_row namespace lb_name dn dm (encode_route r) st = (Ok rw, st').
Proof.
  intros R. destruct r as [path disable_waf app_firewall].
  unfold route_row, encode_route.
  cbn [rc_path rc_disable_waf rc_app_firewall].
  set (ao := encode_waf_choice disable_waf app_firewall).
  set (sr := VDict [("path", VDict (map (fun kv => (fst kv, VStr (snd kv))) path));
                    ("advanced_options", VDict ao)]).
  assert (S : simple_route_of (VDict [("simple_route", sr)]) = Ok sr)
    by reflexivity.
  assert (A : advanced_options_of sr = Ok (VDict ao)).
  { unfold advanced_options_of, sr. cbn. unfold Py.or_else.
    destruct ao; reflexivity. }
  assert (P : exists p, route_path_of sr = Ok p).
  { unfold route_path_of, sr. cbn. destruct (map _ path); now eexists. }
  destruct P as (p & P).
  destruct (route_binding_total namespace dn dm disable_waf app_firewall st R)
    as ([n m] & st' & B).
  rewrite S. unfold bind at 1. cbn [lift ret].
  rewrite A. unfold bind at 1. cbn [lift ret].
  rewrite P. unfold bind at 1. cbn [lift ret].
  rewrite (bind_ok _ _ _ _ _ B). now eexists _, _.
Qed.

Lemma extract_waf_rows_total (lb : LoadBalancerConfig) st :
  reliable ->
  exists d route_rows st',
    extract_waf_rows (encode_lb lb) st = (Ok (d :: route_rows), st')
    /\ row_route d = "NA"
    /\ List.length route_rows = List.length (lbc_routes lb).
Proof.
  intros R. destruct lb as [ns name disable_waf app_firewall routes].
  unfold extract_waf_rows, encode_lb.
  cbn [lbc_namespace lbc_name lbc_disable_waf lbc_app_firewall lbc_routes].
  cbn [Py.truthy negb]. cbv zeta.
  cbn -[default_binding route_row for_each encode_waf_choice map_m].
  destruct (default_binding_total (VStr ns) (VList (map encode_route routes))
              disable_waf app_firewall st R) as (dn & dm & st1 & D).
  rewrite (bind_ok _ _ _ _ _ D).
  cbn -[route_row for_each encode_waf_choice map_m].
  rewrite for_each_append.
  destruct (map_m_total (route_row (VStr ns) (VStr name) dn dm)
              (map encode_route routes)) with (st := st1)
    as (rs & st2 & Mrs & L).
  { intros x s I. apply in_map_iff in I. destruct I as (r & <- & _).
    now apply route_row_total. }
  rewrite (bind_ok _ _ _ _ _ Mrs). cbn.
  eexists _, rs, st2. split; [reflexivity|]. split; [reflexivity|].
  now rewrite L, length_map.
Qed.



(** C8.  For a non-empty load balancer configuration, [extract_waf_rows]
    returns the default row, whose route field is [NA], followed by exactly
    one row per route, the row at each position being the one resolved for
    the route at that position; on a well-formed configuration and a
    reliable server it does return these rows; and the rows of the whole
    run are the concatenation of these sequences in the order in which the
    namespaces are enumerated and, within a namespace, the load balancers
    are listed, every row being kept. *)
Theorem rows_in_listing_order :
  (forall lb_details st rows st',
     Py.truthy lb_details = true ->
     extract_waf_rows lb_details st = (Ok rows, st') ->
     exists namespace lb_name dn dm routes route_rows,
       routes_of lb_details = Ok routes
       /\ rows = default_row namespace lb_name dn dm :: route_rows
       /\ row_route (default_row namespace lb_name dn dm) = "NA"
       /\ List.length route_rows = List.length routes
       /\ Forall2
            (fun route r =>
               exists s s',
                 route_row namespace lb_name dn dm route s = (Ok r, s'))
            routes route_rows)
  /\
  (forall (lb : LoadBalancerConfig) st,
     reliable ->
     exists d route_rows st',
       extract_waf_rows (encode_lb lb) st = (Ok (d :: route_rows), st')
       /\ row_route d = "NA"
       /\ List.length route_rows = List.length (lbc_routes lb))
  /\
  (forall st, main_script st = export_by_concatenation st).
Proof.
  split; [|split].
  - intros lb_details st rows st' T E.
    destruct (extract_waf_rows_inv _ _ _ _ T E)
      as (metadata & namespace & lb_name & spec & dn & dm & routes & rs & st1
          & _ & _ & _ & _ & _ & R & Mrs & ->).
    exists namespace, lb_name, dn, dm, routes, rs.
    pose proof (map_m_inv _ _ _ _ _ Mrs) as F.
    repeat split; try assumption.
    symmetry. eapply Forall2_length. exact F.
  - intros lb st R. now apply extract_waf_rows_total.
  - intros st. unfold main_script, export_by_concatenation.
    cbv zeta. apply bind_ext. intros nss s.
    now rewrite (for_each_extend _ _ export_ns_extends).
Qed.

End Rows.

Lemma tenant_reliable : @reliable (table_host "system" tenant).
Proof.
  intros url w. cbn. unfold tenant, answer.
  repeat match goal with
         | |- context [if (url =? ?u)%string then _ else _] =>
             destruct (url =? u)%string
         end;
    cbn; try reflexivity; eexists _, _; split; reflexivity.
Qed.

Lemma rows_in_listing_order_witness :
  let H := table_host "system" tenant in
  fst (main_script (start "system" tenant))
  = Ok [mk_row "ns1" "lb1" "NA" "fw1" "monitoring";
        mk_row "ns1" "lb1" "prefix=/" "fw1" "monitoring";
        mk_row "ns1" "lb1" "prefix=/api" "fw2 (shared)" "blocking";
        mk_row "ns1" "lb1" "regex=^/static/.*" "waf_disabled" "NA";
        mk_row "ns1" "lb1" "prefix=/" "fw1" "monitoring";
        mk_row "ns1" "lb2" "NA" "waf_disabled" "NA";
        mk_row "ns2" "lb3" "NA" "fw2 (shared)" "blocking";
        mk_row "ns2" "lb3" "NA" "fw2 (shared)" "blocking"]
  /\ (exists namespace lb_name dn dm route_rows,
        [mk_row "ns1" "lb1" "NA" "fw1" "monitoring";
         mk_row "ns1" "lb1" "prefix=/" "fw1" "monitoring";
         mk_row "ns1" "lb1" "prefix=/api" "fw2 (shared)" "blocking";
         mk_row "ns1" "lb1" "regex=^/static/.*" "waf_disabled" "NA";
         mk_row "ns1" "lb1" "prefix=/" "fw1" "monitoring"]
        = default_row namespace lb_name dn dm :: route_rows
        /\ List.length route_rows = 4%nat)
  /\ (exists d route_rows st',
        extract_waf_rows
          (encode_lb {| lbc_namespace := "ns2"; lbc_name := "lb3";
                        lbc_disable_waf := false;
                        lbc_app_firewall := Some "fw2";
                        lbc_routes :=
                          [{| rc_path := [("prefix", "/")];
                              rc_disable_waf := false;
                              rc_app_firewall := None |}] |})
          (start "system" tenant)
        = (Ok (d :: route_rows), st')
        /\ row_route d = "NA"
        /\ List.length route_rows = 1%nat).
Proof.
  cbv zeta.
  destruct (rows_in_listing_order (H := table_host "system" tenant))
    as (Shape & Total & Concat).
  split; [|split].
  - rewrite Concat. reflexivity.
  - destruct (Shape tenant_lb1 (start "system" tenant) _
                (snd (extract_waf_rows tenant_lb1 (start "system" tenant)))
                eq_refl eq_refl)
      as (namespace & lb_name & dn & dm & routes & rs & R & E & _ & L & _).
    exists namespace, lb_name, dn, dm, rs. split; [exact E|].
    rewrite L. inversion R. reflexivity.
  - exact (Total _ (start "system" tenant) tenant_reliable).
Defined.

(** ** Inheritance of the default binding *)

Section Inheritance.

Context `{Host}.

(** Without a default firewall reference the default binding is the
    disabled one. *)
Lemma default_binding_unset namespace spec st dn dm st1 :
  Py.contains "app_firewall" spec <> Ok true ->
  default_binding namespace spec st = (Ok (dn, dm), st1) ->
  dn = VStr "waf_disabled" /\ dm = "NA" /\ st1 = st.
Proof.
  intros N E. unfold default_binding in E.
  invert_pure E disabled Ed.
  destruct disabled.
  - cbn in E. inversion E. auto.
  - rewrite bind_bind in E. invert_pure E present Ep.
    destruct present; [contradiction|].
    cbn in E. inversion E. auto.
Qed.

(** A route with neither a disable marker nor a named override gets the
    binding of the default row. *)
Lemma route_row_inherits namespace lb_name dn dm route st r st' :
  route_row namespace lb_name dn dm route st = (Ok r, st') ->
  ~ has_disable_marker route ->
  ~ has_named_override route ->
  binding_of r = binding_of (default_row namespace lb_name dn dm).
Proof.
  intros E ND NO. unfold route_row in E.
  invert_pure E simple_route Es.
  invert_pure E ao Ea.
  invert_pure E route_path Ep.
  invert_bind E b st1 Eb. destruct b as [n m].
  inversion E; subst. clear E.
  assert (R : route_advanced_options route = Ok ao).
  { unfold route_advanced_options. now rewrite Es. }
  unfold route_binding in Eb.
  invert_pure Eb disabled Ed.
  destruct disabled.
  { exfalso. apply ND. now exists ao. }
  invert_pure Eb named En.
  destruct named.
  { exfalso. apply NO. now exists ao. }
  inversion Eb. reflexivity.
Qed.

Lemma Forall2_Forall_r {A B} (P : A -> B -> Prop) (Q : B -> Prop) l l' :
  Forall2 P l l' ->
  (forall x y, In x l -> P x y -> Q y) ->
  Forall Q l'.
Proof.
  induction 1 as [|x y l l' Pxy F IH]; intros I; constructor.
  - apply (I x y); [now left|exact Pxy].
  - apply IH. intros x' y' Hin. apply I. now right.
Qed.

(** C3, as amended.  On a load balancer configuration with no default
    firewall reference, no disable marker on any route and no route naming
    an override firewall, the default row is the disabled binding and
    every route row carries the same (firewall name, mode) pair as the
    default row. *)
Theorem routes_without_override_inherit
  (lb_details : value) (st : state) (rows : list row) (st' : state)
  (routes : list value) :
  Py.truthy lb_details = true ->
  extract_waf_rows lb_details st = (Ok rows, st') ->
  ~ has_default_reference lb_details ->
  routes_of lb_details = Ok routes ->
  (forall route, In route routes -> ~ has_disable_marker route) ->
  (forall route, In route routes -> ~ has_named_override route) ->
  exists d route_rows,
    rows = d :: route_rows
    /\ binding_of d = (VStr "waf_disabled", "NA")
    /\ List.length route_rows = List.length routes
    /\ Forall (fun r => binding_of r = binding_of d) route_rows.
Proof.
  intros T E ND R NM NO.
  destruct (extract_waf_rows_inv _ _ _ _ T E)
    as (metadata & namespace & lb_name & spec & dn & dm & routes' & rs & st1
        & _ & _ & _ & S & D & R' & Mrs & ->).
  rewrite R in R'. inversion R'; subst routes'. clear R'.
  assert (N : Py.contains "app_firewall" spec <> Ok true).
  { intros C. apply ND. now exists spec. }
  destruct (default_binding_unset _ _ _ _ _ _ N D) as (-> & -> & ->).
  pose proof (map_m_inv _ _ _ _ _ Mrs) as F.
  eexists. exists rs. split; [reflexivity|]. split; [reflexivity|]. split.
  - symmetry. eapply Forall2_length. exact F.
  - eapply Forall2_Forall_r; [exact F|].
    intros route r I (s & s' & Er). cbv beta.
    eapply route_row_inherits; eauto.
Qed.

End Inheritance.

Lemma routes_without_override_inherit_witness :
  let H := table_host "ns1" [] in
  let lb :=
    lb_config "ns1" "lb1"
      [("routes",
        VList [route [("prefix", VStr "/")] [];
               route [("exact", VStr "/x")] [("app_firewall", VDict [])]])] in
  exists d route_rows,
    [mk_row "ns1" "lb1" "NA" "waf_disabled" "NA";
     mk_row "ns1" "lb1" "prefix=/" "waf_disabled" "NA";
     mk_row "ns1" "lb1" "exact=/x" "waf_disabled" "NA"] = d :: route_rows
    /\ binding_of d = (VStr "waf_disabled", "NA")
    /\ List.length route_rows = 2%nat
    /\ Forall (fun r => binding_of r = binding_of d) route_rows.
Proof.
  cbv zeta.
  refine (routes_without_override_inherit (H := table_host "ns1" [])
            (lb_config "ns1" "lb1"
               [("routes",
                 VList [route [("prefix", VStr "/")] [];
                        route [("exact", VStr "/x")]
                          [("app_firewall", VDict [])]])])
            (start "ns1" []) _ (start "ns1" [])
            [route [("prefix", VStr "/")] [];
             route [("exact", VStr "/x")] [("app_firewall", VDict [])]]
            eq_refl eq_refl _ eq_refl _ _).
  - intros (spec & G & C). inversion G; subst. discriminate C.
  - intros r [<-|[<-|[]]] (ao & R & C); inversion R; subst; discriminate C.
  - intros r [<-|[<-|[]]] (ao & R & C); inversion R; subst; discriminate C.
Defined.

(** C3 as the specification states it does not hold: a route that names an
    override firewall gets that firewall, although the load balancer has
    no default firewall reference and no route carries a disable marker. *)
Lemma route_override_differs_from_default :
  let tbl := [(fw_url "ns1" "fw2", found (firewall "fw2" [("blocking", VDict [])]))] in
  let H := table_host "ns1" tbl in
  let r := route [("prefix", VStr "/")]
             [("app_firewall", VDict [("name", VStr "fw2")])] in
  let lb := lb_config "ns1" "lb1" [("routes", VList [r])] in
  ~ has_default_reference lb
  /\ routes_of lb = Ok [r]
  /\ ~ has_disable_marker r
  /\ fst (extract_waf_rows lb (start "ns1" tbl))
     = Ok [mk_row "ns1" "lb1" "NA" "waf_disabled" "NA";
           mk_row "ns1" "lb1" "prefix=/" "fw2" "blocking"]
  /\ binding_of (mk_row "ns1" "lb1" "prefix=/" "fw2" "blocking")
     <> binding_of (mk_row "ns1" "lb1" "NA" "waf_disabled" "NA").
Proof.
  cbv zeta. split; [|split; [|split; [|split]]].
  - intros (spec & G & C). inversion G; subst. discriminate C.
  - reflexivity.
  - intros (ao & R & C). inversion R; subst. discriminate C.
  - reflexivity.
  - discriminate.
Qed.

(** ** The [(shared)] suffix *)

Section Suffix.

Context `{Host}.

Lemma attempt_some rp label body source_ns :
  attempt rp label = Ok (Some (body, source_ns)) ->
  delivers rp body /\ source_ns = label.
Proof.
  destruct rp as [msg|r]; cbn; [discriminate|].
  destruct (is_http_error r) eqn:E.
  - destruct (status_code r =? 404); discriminate.
  - destruct (json_body r) as [b|] eqn:J; [|discriminate].
    intros A. inversion A; subst. split; [|reflexivity].
    exists r. auto.
Qed.

Lemma attempt_none rp label :
  attempt rp label = Ok None -> is_not_found rp = true.
Proof.
  destruct rp as [msg|r]; cbn; [discriminate|].
  destruct (is_http_error r).
  - destruct (status_code r =? 404); [reflexivity|discriminate].
  - destruct (json_body r); discriminate.
Qed.

Lemma truthy_str n : n <> "" -> Py.truthy (VStr n) = true.
Proof.
  intros N. cbn. destruct (n =? "")%string eqn:E; [|reflexivity].
  apply String.eqb_eq in E. contradiction.
Qed.

Lemma shown_truthy n (b : bool) :
  n <> "" -> Py.truthy (VStr (if b then n ++ " (shared)" else n)) = true.
Proof.
  intros N. apply truthy_str. destruct b; [|exact N].
  destruct n; [contradiction|discriminate].
Qed.

(** Where a located firewall was found. *)
Lemma locate_source namespace n info source_ns st st' :
  n <> "" ->
  get_app_firewall_details namespace (VStr n) st = (Ok (info, source_ns), st') ->
  Py.truthy info = true ->
  let url := firewall_url namespace (VStr n) in
  let shared_url := shared_firewall_url (VStr n) in
  (delivers (reply_to url st) info /\ source_ns = namespace)
  \/ (is_not_found (reply_to url st) = true
      /\ Py.is_str "shared" namespace = false
      /\ delivers (reply_to shared_url (after url st)) info
      /\ source_ns = VStr "shared").
Proof.
  intros N E T. cbv zeta. rewrite locate_run, (truthy_str n N) in E.
  cbn [negb] in E.
  destruct (attempt _ namespace) as [[[b s]|]|e] eqn:A.
  - inversion E; subst. left. eapply attempt_some. exact A.
  - apply attempt_none in A.
    destruct (Py.is_str "shared" namespace) eqn:S.
    + inversion E; subst. discriminate T.
    + destruct (attempt _ (VStr "shared")) as [[[b s]|]|e] eqn:A2.
      * inversion E; subst. right. apply attempt_some in A2. tauto.
      * inversion E; subst. discriminate T.
      * discriminate E.
  - discriminate E.
Qed.

(** C7, as amended.  When the locator finds a non-empty firewall object
    for a non-empty name, it found it either in the requesting namespace
    or, after a 404 there and with a requesting namespace other than
    [shared], in [shared]; the name shown for it, in the default binding
    and in a route override alike, carries the [ (shared)] suffix exactly
    when the namespace in which it was found is [shared], so that a
    firewall found in a requesting namespace other than [shared] never
    carries it and a firewall found by the fallback always does. *)
Theorem shared_suffix_follows_source
  (namespace : value) (n : string) (info source_ns : value) (mode : string)
  (st st' : state) :
  n <> "" ->
  get_app_firewall_details namespace (VStr n) st = (Ok (info, source_ns), st') ->
  Py.truthy info = true ->
  get_waf_mode info = Ok mode ->
  let url := firewall_url namespace (VStr n) in
  let shared_url := shared_firewall_url (VStr n) in
  let shown :=
    VStr (if Py.is_str "shared" source_ns then n ++ " (shared)" else n) in
  ((delivers (reply_to url st) info /\ source_ns = namespace)
   \/ (is_not_found (reply_to url st) = true
       /\ Py.is_str "shared" namespace = false
       /\ delivers (reply_to shared_url (after url st)) info
       /\ source_ns = VStr "shared"))
  /\ (forall spec app_firewall lb_name,
        Py.contains "disable_waf" spec = Ok false ->
        Py.contains "app_firewall" spec = Ok true ->
        Py.get spec "app_firewall" (VDict []) = Ok app_firewall ->
        Py.get app_firewall "name" VNone = Ok (VStr n) ->
        default_binding namespace spec st = (Ok (shown, mode), st')
        /\ binding_of (default_row namespace lb_name shown mode)
           = (shown, Py.str_or mode "NA"))
  /\ (forall dn dm ao app_firewall,
        Py.contains "disable_waf" ao = Ok false ->
        Py.getitem ao "app_firewall" = Ok app_firewall ->
        Py.get app_firewall "name" VNone = Ok (VStr n) ->
        route_binding namespace dn dm ao st = (Ok (shown, mode), st')).
Proof.
  intros N E T Gm. cbv zeta.
  split; [exact (locate_source _ _ _ _ _ _ N E T)|]. split.
  - intros spec app_firewall lb_name D P G Gn. split.
    + unfold default_binding. rewrite D. cbn. rewrite P. cbn.
      rewrite G. cbn. rewrite Gn. cbn [lift].
      unfold bind, ret. rewrite (truthy_str n N), E, Gm. cbn [lift ret].
      rewrite andb_true_r.
      destruct (Py.is_str "shared" source_ns); reflexivity.
    + unfold binding_of, default_row. cbn [row_waf_name row_waf_mode].
      unfold Py.or_else. now rewrite (shown_truthy n _ N).
  - intros dn dm ao app_firewall D G Gn.
    assert (NO : names_override ao = Ok true).
    { unfold names_override, Py.getitem in *. destruct ao; try discriminate.
      cbn. unfold Py.has_key. destruct (Py.assoc "app_firewall" d); [|discriminate].
      inversion G; subst. rewrite Gn. now rewrite (truthy_str n N). }
    assert (Gi : Py.getitem app_firewall "name" = Ok (VStr n)).
    { unfold Py.getitem, Py.get in *. destruct app_firewall; try discriminate.
      destruct (Py.assoc "name" d); [exact Gn|].
      inversion Gn. }
    unfold route_binding. rewrite D. cbn. rewrite NO. cbn. rewrite G. cbn.
    rewrite Gi. cbn [lift]. unfold bind, ret. rewrite E, T. cbn [negb].
    rewrite Gm. cbn [lift ret].
    destruct (Py.is_str "shared" source_ns); reflexivity.
Qed.

End Suffix.

Lemma shared_suffix_follows_source_witness :
  let H := table_host "system" tenant in
  fst (default_binding (VStr "ns1")
         (VDict [("app_firewall", VDict [("name", VStr "fw2")])])
         (start "system" tenant))
  = Ok (VStr "fw2 (shared)", "blocking")
  /\ fst (route_binding (VStr "ns1") (VStr "waf_disabled") "NA"
            (VDict [("app_firewall", VDict [("name", VStr "fw1")])])
            (start "system" tenant))
     = Ok (VStr "fw1", "monitoring").
Proof.
  cbv zeta.
  assert (N2 : "fw2" <> "") by discriminate.
  assert (N1 : "fw1" <> "") by discriminate.
  split.
  - destruct (shared_suffix_follows_source (H := table_host "system" tenant)
                (VStr "ns1") "fw2" (firewall "fw2" [("blocking", VDict [])])
                (VStr "shared") "blocking" (start "system" tenant)
                (snd (get_app_firewall_details (VStr "ns1") (VStr "fw2")
                        (start "system" tenant)))
                N2 eq_refl eq_refl eq_refl)
      as (_ & D & _).
    destruct (D (VDict [("app_firewall", VDict [("name", VStr "fw2")])])
                (VDict [("name", VStr "fw2")]) (VStr "lb1")
                eq_refl eq_refl eq_refl eq_refl) as [E _].
    rewrite E. reflexivity.
  - destruct (shared_suffix_follows_source (H := table_host "system" tenant)
                (VStr "ns1") "fw1" (firewall "fw1" [("monitoring", VDict [])])
                (VStr "ns1") "monitoring" (start "system" tenant)
                (snd (get_app_firewall_details (VStr "ns1") (VStr "fw1")
                        (start "system" tenant)))
                N1 eq_refl eq_refl eq_refl)
      as (_ & _ & R).
    rewrite (R (VStr "waf_disabled") "NA"
               (VDict [("app_firewall", VDict [("name", VStr "fw1")])])
               (VDict [("name", VStr "fw1")]) eq_refl eq_refl eq_refl).
    reflexivity.
Defined.

(** C7 as the specification states it does not hold: a load balancer in
    the [shared] namespace whose firewall is found there, in the requesting
    namespace itself and at the first lookup, is shown with the suffix, in
    the default row and in the row of a route that names it. *)
Lemma suffix_in_requesting_namespace_shared :
  let fw1 := firewall "fw1" [("blocking", VDict [])] in
  let tbl := [(fw_url "shared" "fw1", found fw1)] in
  let H := table_host "shared" tbl in
  let lb :=
    lb_config "shared" "lb1"
      [("app_firewall", VDict [("name", VStr "fw1")]);
       ("routes",
        VList [route [("prefix", VStr "/")]
                 [("app_firewall", VDict [("name", VStr "fw1")])]])] in
  delivers (reply_to (firewall_url (VStr "shared") (VStr "fw1"))
              (start "shared" tbl)) fw1
  /\ run_on "shared" tbl (extract_waf_rows lb)
     = (Ok [mk_row "shared" "lb1" "NA" "fw1 (shared)" "blocking";
            mk_row "shared" "lb1" "prefix=/" "fw1 (shared)" "blocking"],
        [(fw_url "shared" "fw1", found fw1);
         (fw_url "shared" "fw1", found fw1)]).
Proof.
  cbv zeta. split; [|reflexivity].
  eexists. split; [reflexivity|]. split; reflexivity.
Qed.

(** ** Failures of the collaborators *)

Section Failures.

Context `{Host}.

Lemma pf_ret {A} (a : A) : propagates_failures (ret a).
Proof. intros st. exists []. cbn. rewrite app_nil_r. split; [reflexivity|]. intros ? ? ? []. Qed.

Lemma pf_raise {A} e : propagates_failures (@raise _ A e).
Proof. intros st. exists []. cbn. rewrite app_nil_r. split; [reflexivity|]. intros ? ? ? []. Qed.

Lemma pf_lift {A} (r : result A) : propagates_failures (lift r).
Proof. destruct r; [apply pf_ret|apply pf_raise]. Qed.

Lemma pf_bind {A B} (m : M A) (k : A -> M B) :
  propagates_failures m ->
  (forall a, propagates_failures (k a)) ->
  propagates_failures (bind m k).
Proof.
  intros Pm Pk st. destruct (Pm st) as (new1 & L1 & F1).
  unfold bind. destruct (m st) as [[a|e] st1] eqn:E; cbn [fst snd] in *.
  - destruct (Pk a st1) as (new2 & L2 & F2).
    exists (new1 ++ new2)%list. split.
    + rewrite L2, L1. now rewrite app_assoc.
    + intros url rp e I Fl. apply in_app_or in I. destruct I as [I|I].
      * specialize (F1 _ _ _ I Fl). discriminate F1.
      * exact (F2 _ _ _ I Fl).
  - exists new1. split; [exact L1|].
    intros url rp e' I Fl. specialize (F1 _ _ _ I Fl). now inversion F1.
Qed.

Lemma pf_for_each {A S} (body : A -> S -> M S) l :
  (forall x acc, propagates_failures (body x acc)) ->
  forall acc, propagates_failures (for_each body l acc).
Proof.
  intros Pb. induction l as [|x xs IH]; intros acc; cbn [for_each].
  - apply pf_ret.
  - apply pf_bind; [apply Pb|exact IH].
Qed.

Lemma failure_of_fetch rp e :
  failure_of rp = Some e -> fetch_outcome rp = Err e.
Proof.
  destruct rp as [msg|r]; cbn.
  - intros E. now inversion E.
  - destruct (is_http_error r).
    + destruct (status_code r =? 404); intros E; now inversion E.
    + destruct (json_body r); intros E; now inversion E.
Qed.

Lemma fetch_ok_no_failure rp body :
  fetch_outcome rp = Ok body -> failure_of rp = None.
Proof.
  destruct rp as [msg|r]; cbn; [discriminate|].
  destruct (is_http_error r); [discriminate|].
  destruct (json_body r); [reflexivity|discriminate].
Qed.

Lemma failure_of_attempt rp label e :
  failure_of rp = Some e -> attempt rp label = Err e.
Proof.
  destruct rp as [msg|r]; cbn.
  - intros E. now inversion E.
  - destruct (is_http_error r).
    + destruct (status_code r =? 404); intros E; now inversion E.
    + destruct (json_body r); intros E; now inversion E.
Qed.

Lemma attempt_ok_no_failure rp label o :
  attempt rp label = Ok o -> failure_of rp = None.
Proof.
  destruct rp as [msg|r]; cbn; [discriminate|].
  destruct (is_http_error r).
  - destruct (status_code r =? 404); [reflexivity|discriminate].
  - destruct (json_body r); [reflexivity|discriminate].
Qed.

(** [requests.get], [raise_for_status] and [json] in a row. *)
Lemma fetch_run {A} url (k : value -> M A) st :
  (resp <- http_get url ;;
   _ <- raise_for_status resp ;;
   body <- json resp ;;
   k body) st
  = match fetch_outcome (reply_to url st) with
    | Ok body => k body (after url st)
    | Err e => (Err e, after url st)
    end.
Proof.
  unfold bind at 1. rewrite http_get_run.
  destruct (reply_to url st) as [msg|r]; cbn [fetch_outcome]; [reflexivity|].
  unfold bind, raise_for_status. fold (is_http_error r).
  destruct (is_http_error r); cbn; [reflexivity|].
  unfold json. destruct (json_body r); reflexivity.
Qed.

Lemma pf_fetch {A} url (k : value -> M A) :
  (forall body, propagates_failures (k body)) ->
  propagates_failures
    (resp <- http_get url ;;
     _ <- raise_for_status resp ;;
     body <- json resp ;;
     k body).
Proof.
  intros Pk st. rewrite fetch_run.
  destruct (fetch_outcome (reply_to url st)) as [body|e] eqn:F.
  - destruct (Pk body (after url st)) as (new & L & Fk).
    exists ((url, reply_to url st) :: new). split.
    + rewrite L. cbn. now rewrite <- app_assoc.
    + intros u rp e [I|I] Fl.
      * inversion I; subst. rewrite (fetch_ok_no_failure _ _ F) in Fl.
        discriminate Fl.
      * exact (Fk _ _ _ I Fl).
  - exists [(url, reply_to url st)]. split; [reflexivity|].
    intros u rp e' [I|[]] Fl. inversion I; subst.
    rewrite (failure_of_fetch _ _ Fl) in F. cbn. now inversion F.
Qed.

Lemma pf_ext {A} (m m' : M A) :
  (forall st, m st = m' st) -> propagates_failures m' -> propagates_failures m.
Proof. intros E P st. rewrite E. apply P. Qed.

Lemma bind_ret_r {A} (m : M A) st : bind m (fun a => ret a) st = m st.
Proof. unfold bind, ret. destruct (m st) as [[a|e] st1]; reflexivity. Qed.

Lemma pf_locate namespace waf_name :
  propagates_failures (get_app_firewall_details namespace waf_name).
Proof.
  intros st. rewrite locate_run.
  destruct (Py.truthy waf_name); cbn [negb].
  2:{ exists []. cbn. rewrite app_nil_r. split; [reflexivity|]. intros ? ? ? []. }
  cbv zeta.
  set (url := firewall_url namespace waf_name).
  set (shared_url := shared_firewall_url waf_name).
  assert (One : forall (r : result (value * value)),
             (forall e, failure_of (reply_to url st) = Some e -> r = Err e) ->
             exists new,
               log (snd (r, after url st)) = (log st ++ new)%list
               /\ forall u rp e,
                    In (u, rp) new -> failure_of rp = Some e ->
                    fst (r, after url st) = Err e).
  { intros r Fr. exists [(url, reply_to url st)]. split; [reflexivity|].
    intros u rp e [I|[]] Fl. inversion I; subst. exact (Fr _ Fl). }
  destruct (attempt (reply_to url st) namespace) as [[r|]|e] eqn:A.
  - apply One. intros e Fl.
    rewrite (attempt_ok_no_failure _ _ _ A) in Fl. discriminate Fl.
  - pose proof (attempt_ok_no_failure _ _ _ A) as NoF.
    destruct (Py.is_str "shared" namespace).
    { apply One. intros e Fl. rewrite NoF in Fl. discriminate Fl. }
    set (st1 := after url st).
    assert (Two : forall (r : result (value * value)),
               (forall e, failure_of (reply_to shared_url st1) = Some e ->
                          r = Err e) ->
               exists new,
                 log (snd (r, after shared_url st1)) = (log st ++ new)%list
                 /\ forall u rp e,
                      In (u, rp) new -> failure_of rp = Some e ->
                      fst (r, after shared_url st1) = Err e).
    { intros r Fr.
      exists [(url, reply_to url st); (shared_url, reply_to shared_url st1)].
      split; [cbn; now rewrite <- app_assoc|].
      intros u rp e [I|[I|[]]] Fl; inversion I; subst.
      - rewrite NoF in Fl. discriminate Fl.
      - exact (Fr _ Fl). }
    destruct (attempt (reply_to shared_url st1) (VStr "shared"))
      as [[r|]|e] eqn:A2; apply Two; intros e' Fl.
    + rewrite (attempt_ok_no_failure _ _ _ A2) in Fl. discriminate Fl.
    + rewrite (attempt_ok_no_failure _ _ _ A2) in Fl. discriminate Fl.
    + rewrite (failure_of_attempt _ _ _ Fl) in A2. now inversion A2.
  - apply One. intros e' Fl.
    rewrite (failure_of_attempt _ _ _ Fl) in A. now inversion A.
Qed.

Ltac pf_step :=
  first
    [ apply pf_ret
    | apply pf_raise
    | apply pf_lift
    | apply pf_locate
    | apply pf_fetch; intros
    | apply pf_for_each; intros
    | apply pf_bind; [|intros]
    | match goal with
      | |- propagates_failures (if ?b then _ else _) => destruct b
      | |- propagates_failures (match ?p with (_, _) => _ end) => destruct p
      end ].

Lemma pf_get_namespaces : propagates_failures get_namespaces.
Proof. unfold get_namespaces. repeat pf_step. Qed.

Lemma pf_get_http_loadbalancers namespace :
  propagates_failures (get_http_loadbalancers namespace).
Proof. unfold get_http_loadbalancers. repeat pf_step. Qed.

Lemma pf_get_lb_details namespace lb_name :
  propagates_failures (get_lb_details namespace lb_name).
Proof.
  unfold get_lb_details.
  eapply pf_ext; [|apply pf_fetch; intros body; apply (pf_ret body)].
  intros st. apply bind_ext. intros resp s. apply bind_ext. intros _ s'.
  now rewrite bind_ret_r.
Qed.

Lemma pf_default_binding namespace spec :
  propagates_failures (default_binding namespace spec).
Proof. unfold default_binding. repeat pf_step. Qed.

Lemma pf_route_row namespace lb_name dn dm route :
  propagates_failures (route_row namespace lb_name dn dm route).
Proof. unfold route_row, route_binding. repeat pf_step. Qed.

Lemma pf_extract_waf_rows lb_details :
  propagates_failures (extract_waf_rows lb_details).
Proof.
  unfold extract_waf_rows. cbv zeta.
  repeat first [apply pf_default_binding | apply pf_route_row | pf_step].
Qed.

Lemma pf_main_script : propagates_failures main_script.
Proof.
  unfold main_script, export_ns, export_lb. cbv zeta.
  repeat first [ apply pf_get_namespaces | apply pf_get_http_loadbalancers
               | apply pf_get_lb_details | apply pf_extract_waf_rows
               | pf_step ].
Qed.

End Failures.

(** C5.  The locator, the resolver and the whole export run propagate
    failures: every request they issue is logged with its answer, and an
    answer that is a failure other than not-found (an exception of the
    transport, an error status other than 404, a body that is not JSON)
    ends the computation with the exception of that failure, so that no
    pair and no row is returned in its place. *)
Theorem failures_abort_the_export `{Host} :
  (forall namespace waf_name,
     propagates_failures (get_app_firewall_details namespace waf_name))
  /\ (forall lb_details, propagates_failures (extract_waf_rows lb_details))
  /\ propagates_failures main_script.
Proof.
  split; [|split].
  - exact pf_locate.
  - exact pf_extract_waf_rows.
  - exact pf_main_script.
Qed.

Lemma failures_abort_the_export_witness :
  let forbidden := Responds {| status_code := 403; json_body := None |} in
  let tbl := [(ns_list_url, found (listing ["ns1"]));
              (lb_list_url "ns1", found (listing ["lb1"]));
              (lb_url "ns1" "lb1", found tenant_lb1);
              (fw_url "shared" "fw1", forbidden)] in
  let H := table_host "system" tbl in
  fst (get_app_firewall_details (VStr "ns1") (VStr "fw1") (start "system" tbl))
  = Err (HTTPError 403)
  /\ fst (main_script (start "system" tbl)) = Err (HTTPError 403).
Proof.
  cbv zeta.
  set (forbidden := Responds {| status_code := 403; json_body := None |}).
  set (tbl := [(ns_list_url, found (listing ["ns1"]));
               (lb_list_url "ns1", found (listing ["lb1"]));
               (lb_url "ns1" "lb1", found tenant_lb1);
               (fw_url "shared" "fw1", forbidden)]).
  destruct (failures_abort_the_export (H := table_host "system" tbl))
    as (L & _ & R).
  split.
  - destruct (L (VStr "ns1") (VStr "fw1") (start "system" tbl))
      as (new & Lg & F).
    apply (F (fw_url "shared" "fw1") forbidden); [|reflexivity].
    rewrite <- (Lg : _ = new). vm_compute. auto.
  - destruct (R (start "system" tbl)) as (new & Lg & F).
    apply (F (fw_url "shared" "fw1") forbidden); [|reflexivity].
    rewrite <- (Lg : _ = new). vm_compute. auto 10.
Defined.

(** ** The default row of a dangling or unclassifiable firewall *)

Section DefaultRow.

Context `{Host}.

(** When a firewall reference names a firewall that the locator does not
    find, the default binding keeps the name and gets the empty mode, which
    the default row turns into [NA]; the binding of a route whose override
    is that same reference is the disabled one. *)
Lemma dangling_reference_default_and_route
  namespace lb_name spec ao app_firewall n st st' dn dm :
  n <> "" ->
  Py.get app_firewall "name" VNone = Ok (VStr n) ->
  get_app_firewall_details namespace (VStr n) st = (Ok (VDict [], VNone), st') ->
  Py.contains "disable_waf" spec = Ok false ->
  Py.contains "app_firewall" spec = Ok true ->
  Py.get spec "app_firewall" (VDict []) = Ok app_firewall ->
  Py.contains "disable_waf" ao = Ok false ->
  Py.contains "app_firewall" ao = Ok true ->
  Py.getitem ao "app_firewall" = Ok app_firewall ->
  default_binding namespace spec st = (Ok (VStr n, ""), st')
  /\ binding_of (default_row namespace lb_name (VStr n) "") = (VStr n, "NA")
  /\ route_binding namespace dn dm ao st
     = (Ok (VStr "waf_disabled", "NA"), st').
Proof.
  intros N Gn E D P G D' P' G'. split; [|split].
  - unfold default_binding. rewrite D. cbn. rewrite P. cbn.
    rewrite G. cbn. rewrite Gn. cbn [lift].
    unfold bind, ret. rewrite (truthy_str n N), E. reflexivity.
  - unfold binding_of, default_row, Py.or_else.
    cbn [row_waf_name row_waf_mode]. now rewrite (truthy_str n N).
  - assert (NO : names_override ao = Ok true).
    { unfold names_override. rewrite P', G', Gn. now rewrite (truthy_str n N). }
    assert (Gi : Py.getitem app_firewall "name" = Ok (VStr n)).
    { unfold Py.getitem, Py.get in *. destruct app_firewall; try discriminate.
      destruct (Py.assoc "name" d); [exact Gn|]. inversion Gn. }
    unfold route_binding. rewrite D'. cbn. rewrite NO. cbn. rewrite G'. cbn.
    rewrite Gi. cbn [lift]. unfold bind, ret. rewrite E. reflexivity.
Qed.

End DefaultRow.

(** C1.  The code at the failing input: the default firewall reference of
    [lb1] names [fw1], which is found neither in [ns1] nor in [shared]
    (both lookups are answered with 404).  The default row keeps the name
    [fw1] with mode [NA], where the specification requires [waf_disabled]. *)
Theorem dangling_default_row_keeps_name :
  run_on "ns1" []
    (extract_waf_rows
       (lb_config "ns1" "lb1" [("app_firewall", VDict [("name", VStr "fw1")])]))
  = (Ok [mk_row "ns1" "lb1" "NA" "fw1" "NA"],
     [(fw_url "ns1" "fw1", not_found); (fw_url "shared" "fw1", not_found)]).
Proof. reflexivity. Qed.

(** C2.  The code at the failing input: [fw1] is found in [ns1] and has
    no recognizable mode key; it is the default firewall of [lb1] and the
    override of its only route.  The default row carries [fw1] with mode
    [NA], where the specification requires the empty mode; the route row carries
    [fw1] with the empty mode. *)
Theorem unclassifiable_default_row_has_mode_NA :
  run_on "ns1"
    [(fw_url "ns1" "fw1", found (firewall "fw1" [("detection_settings", VDict [])]))]
    (extract_waf_rows
       (lb_config "ns1" "lb1"
          [("app_firewall", VDict [("name", VStr "fw1")]);
           ("routes",
            VList [route [("prefix", VStr "/")]
                     [("app_firewall", VDict [("name", VStr "fw1")])]])]))
  = (Ok [mk_row "ns1" "lb1" "NA" "fw1" "NA";
         mk_row "ns1" "lb1" "prefix=/" "fw1" ""],
     [(fw_url "ns1" "fw1",
       found (firewall "fw1" [("detection_settings", VDict [])]));
      (fw_url "ns1" "fw1",
       found (firewall "fw1" [("detection_settings", VDict [])]))]).
Proof. reflexivity. Qed.

(** ** The listing calls *)

Section Listings.

Context `{Host}.

Lemma lift_run {A} (r : result A) st : lift r st = (r, st).
Proof. destruct r; reflexivity. Qed.

Lemma error_status_fetch rp code :
  error_status rp = Some code -> fetch_outcome rp = Err (HTTPError code).
Proof.
  destruct rp as [msg|r]; cbn; [discriminate|].
  destruct (is_http_error r); [|discriminate].
  intros E. now inversion E.
Qed.

Lemma fetch_outcome_ok rp body :
  fetch_outcome rp = Ok body <-> delivers rp body.
Proof.
  split.
  - destruct rp as [msg|r]; cbn; [discriminate|].
    destruct (is_http_error r) eqn:E; [discriminate|].
    destruct (json_body r) as [b|] eqn:J; [|discriminate].
    intros B. inversion B; subst. exists r. auto.
  - intros (r & -> & E & J). cbn. now rewrite E, J.
Qed.

Lemma get_lb_details_run namespace lb_name st :
  get_lb_details namespace lb_name st
  = (fetch_outcome (reply_to (lb_details_url namespace lb_name) st),
     after (lb_details_url namespace lb_name) st).
Proof.
  unfold get_lb_details. fold (lb_details_url namespace lb_name).
  set (url := lb_details_url namespace lb_name).
  transitivity
    ((resp <- http_get url ;; _ <- raise_for_status resp ;;
      body <- json resp ;; ret body) st).
  - apply bind_ext. intros resp s. apply bind_ext. intros _ s'.
    now rewrite bind_ret_r.
  - rewrite fetch_run. now destruct (fetch_outcome (reply_to url st)).
Qed.

(** The names kept by the comprehension of [get_http_loadbalancers]. *)
Lemma loadbalancer_names_kept lbs names :
  comprehension
    (fun lb => match Py.get lb "name" VNone with
               | Ok n => Ok (if Py.truthy n then Some n else None)
               | Err e => Err e
               end) lbs = Ok names ->
  names = filter Py.truthy (map listed_name lbs).
Proof.
  revert names. induction lbs as [|lb lbs IH]; intros names E; cbn in E.
  - now inversion E.
  - cbn [map filter].
    destruct (Py.get lb "name" VNone) as [n|e] eqn:G; [|discriminate].
    destruct (comprehension _ lbs) as [ys|e]; [|discriminate].
    replace (listed_name lb) with n by (unfold listed_name; now rewrite G).
    rewrite <- (IH ys eq_refl). inversion E; subst.
    destruct (Py.truthy n); reflexivity.
Qed.

(** The names returned by the comprehension of [get_namespaces]. *)
Lemma namespace_names_kept nss names :
  comprehension
    (fun ns => match Py.getitem ns "name" with
               | Ok n => Ok (Some n)
               | Err e => Err e
               end) nss = Ok names ->
  Forall2 (fun ns n => Py.getitem ns "name" = Ok n) nss names.
Proof.
  revert names. induction nss as [|ns nss IH]; intros names E; cbn in E.
  - inversion E. constructor.
  - destruct (Py.getitem ns "name") as [n|e] eqn:G; [|discriminate].
    destruct (comprehension _ nss) as [ys|e]; [|discriminate].
    inversion E; subst. constructor; auto.
Qed.

Lemma get_http_loadbalancers_run namespace st :
  get_http_loadbalancers namespace st
  = (match fetch_outcome (reply_to (loadbalancers_url namespace) st) with
     | Err e => Err e
     | Ok body =>
         match listed_items body with
         | Err e => Err e
         | Ok lbs =>
             comprehension
               (fun lb => match Py.get lb "name" VNone with
                          | Ok n => Ok (if Py.truthy n then Some n else None)
                          | Err e => Err e
                          end) lbs
         end
     end, after (loadbalancers_url namespace) st).
Proof.
  unfold get_http_loadbalancers. fold (loadbalancers_url namespace).
  cbv zeta. rewrite fetch_run.
  destruct (fetch_outcome _) as [body|e]; [|reflexivity].
  unfold bind, listed_items. rewrite lift_run.
  destruct (Py.get body "items" (VList [])) as [items|e]; [|reflexivity].
  rewrite lift_run. destruct (Py.iter items) as [lbs|e]; [|reflexivity].
  now rewrite lift_run.
Qed.

Lemma get_namespaces_run st :
  NAMESPACE = "system" ->
  get_namespaces st
  = (match fetch_outcome (reply_to namespaces_url st) with
     | Err e => Err e
     | Ok body =>
         match listed_items body with
         | Err e => Err e
         | Ok nss =>
             comprehension
               (fun ns => match Py.getitem ns "name" with
                          | Ok n => Ok (Some n)
                          | Err e => Err e
                          end) nss
         end
     end, after namespaces_url st).
Proof.
  intros S. unfold get_namespaces. rewrite S, String.eqb_refl.
  cbn [negb]. fold namespaces_url. cbv zeta. rewrite fetch_run.
  destruct (fetch_outcome _) as [body|e]; [|reflexivity].
  unfold bind, listed_items. rewrite lift_run.
  destruct (Py.get body "items" (VList [])) as [items|e]; [|reflexivity].
  rewrite lift_run. destruct (Py.iter items) as [nss|e]; [|reflexivity].
  now rewrite lift_run.
Qed.

Lemma get_namespaces_explicit st :
  NAMESPACE <> "system" -> get_namespaces st = (Ok [VStr NAMESPACE], st).
Proof.
  intros N. unfold get_namespaces.
  destruct (NAMESPACE =? "system")%string eqn:E; [|reflexivity].
  apply String.eqb_eq in E. contradiction.
Qed.

(** X1.  A successful [get_http_loadbalancers] has issued exactly one
    request, to the listing of the namespace, and returns the names of the
    listed items in listing order with the empty and absent names left
    out: no name it returns is empty. *)
Theorem loadbalancer_names_are_filtered
  (namespace : value) (st : state) (names : list value) (st' : state) :
  get_http_loadbalancers namespace st = (Ok names, st') ->
  st' = after (loadbalancers_url namespace) st
  /\ exists body lbs,
       delivers (reply_to (loadbalancers_url namespace) st) body
       /\ listed_items body = Ok lbs
       /\ names = filter Py.truthy (map listed_name lbs)
       /\ Forall (fun n => Py.truthy n = true) names.
Proof.
  rewrite get_http_loadbalancers_run. intros E.
  destruct (fetch_outcome _) as [body|e] eqn:F; [|discriminate E].
  destruct (listed_items body) as [lbs|e] eqn:L; [|discriminate E].
  inversion E as [[R S]]. split; [reflexivity|].
  exists body, lbs. split; [now apply fetch_outcome_ok|]. split; [exact L|].
  pose proof (loadbalancer_names_kept _ _ R) as K. split; [exact K|].
  rewrite K. apply Forall_forall. intros n I. now apply filter_In in I.
Qed.

(** X2.  The three listing calls treat every error status as fatal, 404
    included: each ends with the [HTTPError] of that status after its one
    request, where the firewall locator would fall back on a 404. *)
Theorem listing_errors_are_fatal (st : state) (code : Z) :
  (NAMESPACE = "system" ->
   error_status (reply_to namespaces_url st) = Some code ->
   get_namespaces st = (Err (HTTPError code), after namespaces_url st))
  /\ (forall namespace,
        error_status (reply_to (loadbalancers_url namespace) st) = Some code ->
        get_http_loadbalancers namespace st
        = (Err (HTTPError code), after (loadbalancers_url namespace) st))
  /\ (forall namespace lb_name,
        error_status (reply_to (lb_details_url namespace lb_name) st)
        = Some code ->
        get_lb_details namespace lb_name st
        = (Err (HTTPError code), after (lb_details_url namespace lb_name) st)).
Proof.
  split; [|split].
  - intros S E. rewrite (get_namespaces_run st S).
    now rewrite (error_status_fetch _ _ E).
  - intros namespace E. rewrite get_http_loadbalancers_run.
    now rewrite (error_status_fetch _ _ E).
  - intros namespace lb_name E. rewrite get_lb_details_run.
    now rewrite (error_status_fetch _ _ E).
Qed.

(** X3.  With a selector other than [system], [get_namespaces] returns
    that one namespace without any request.  With [system] a successful
    call has issued one request and returns the [name] of every listed
    item, in order and without filtering: an item whose name is empty is
    kept, and the call cannot succeed if an item has no [name] key. *)
Theorem namespaces_are_listed_unfiltered (st : state) :
  (NAMESPACE <> "system" -> get_namespaces st = (Ok [VStr NAMESPACE], st))
  /\ (NAMESPACE = "system" ->
      forall names st',
        get_namespaces st = (Ok names, st') ->
        st' = after namespaces_url st
        /\ exists body nss,
             delivers (reply_to namespaces_url st) body
             /\ listed_items body = Ok nss
             /\ Forall2 (fun ns n => Py.getitem ns "name" = Ok n) nss names).
Proof.
  split; [apply get_namespaces_explicit|].
  intros S names st'. rewrite (get_namespaces_run st S).
  intros E.
  destruct (fetch_outcome _) as [body|e] eqn:F; [|discriminate E].
  destruct (listed_items body) as [nss|e] eqn:L; [|discriminate E].
  inversion E as [[R T]]. split; [reflexivity|].
  exists body, nss. split; [now apply fetch_outcome_ok|]. split; [exact L|].
  now apply namespace_names_kept.
Qed.

End Listings.

Lemma loadbalancer_names_are_filtered_witness :
  let tbl :=
    [(lb_list_url "ns1",
      found (VDict [("items",
                     VList [VDict [("name", VStr "lb1")];
                            VDict [("name", VStr "")];
                            VDict [("namespace", VStr "ns1")];
                            VDict [("name", VStr "lb2")]])]))] in
  let H := table_host "ns1" tbl in
  exists body lbs,
    delivers (reply_to (loadbalancers_url (VStr "ns1")) (start "ns1" tbl)) body
    /\ listed_items body = Ok lbs
    /\ [VStr "lb1"; VStr "lb2"] = filter Py.truthy (map listed_name lbs)
    /\ Forall (fun n => Py.truthy n = true) [VStr "lb1"; VStr "lb2"].
Proof.
  cbv zeta.
  set (tbl :=
         [(lb_list_url "ns1",
           found (VDict [("items",
                          VList [VDict [("name", VStr "lb1")];
                                 VDict [("name", VStr "")];
                                 VDict [("namespace", VStr "ns1")];
                                 VDict [("name", VStr "lb2")]])]))]).
  exact (proj2 (loadbalancer_names_are_filtered (H := table_host "ns1" tbl)
                  (VStr "ns1") (start "ns1" tbl) [VStr "lb1"; VStr "lb2"]
                  (snd (get_http_loadbalancers (VStr "ns1") (start "ns1" tbl)))
                  eq_refl)).
Defined.

Lemma listing_errors_are_fatal_witness :
  let H := table_host "system" [] in
  fst (get_namespaces (start "system" [])) = Err (HTTPError 404)
  /\ fst (get_http_loadbalancers (VStr "nowhere") (start "system" []))
     = Err (HTTPError 404)
  /\ fst (get_lb_details (VStr "ns1") (VStr "gone") (start "system" []))
     = Err (HTTPError 404).
Proof.
  cbv zeta.
  destruct (listing_errors_are_fatal (H := table_host "system" [])
              (start "system" []) 404) as (N & L & D).
  split; [|split].
  - rewrite (N eq_refl eq_refl). reflexivity.
  - rewrite (L (VStr "nowhere") eq_refl). reflexivity.
  - rewrite (D (VStr "ns1") (VStr "gone") eq_refl). reflexivity.
Defined.

Lemma namespaces_are_listed_unfiltered_witness :
  let tbl :=
    [(ns_list_url,
      found (VDict [("items",
                     VList [VDict [("name", VStr "ns1")];
                            VDict [("name", VStr "")]])]))] in
  (let H := table_host "ns7" tbl in
   get_namespaces (start "ns7" tbl) = (Ok [VStr "ns7"], start "ns7" tbl))
  /\ (let H := table_host "system" tbl in
      exists body nss,
        delivers (reply_to namespaces_url (start "system" tbl)) body
        /\ listed_items body = Ok nss
        /\ Forall2 (fun ns n => Py.getitem ns "name" = Ok n) nss
             [VStr "ns1"; VStr ""]).
Proof.
  cbv zeta.
  set (tbl :=
         [(ns_list_url,
           found (VDict [("items",
                          VList [VDict [("name", VStr "ns1")];
                                 VDict [("name", VStr "")]])]))]).
  split.
  - apply (proj1 (namespaces_are_listed_unfiltered (H := table_host "ns7" tbl)
                    (start "ns7" tbl))).
    discriminate.
  - exact (proj2 (proj2 (namespaces_are_listed_unfiltered
                           (H := table_host "system" tbl) (start "system" tbl))
                    eq_refl [VStr "ns1"; VStr ""]
                    (snd (get_namespaces (start "system" tbl))) eq_refl)).
Defined.

(** ** Edges of the run *)

Section Edges.

Context `{Host}.

Lemma delivers_attempt rp body label :
  delivers rp body -> attempt rp label = Ok (Some (body, label)).
Proof. intros (r & -> & E & J). cbn. now rewrite E, J. Qed.

(** X4.  With an explicit namespace the run starts with the listing of
    its load balancers, and an error status on that listing, such as the
    404 of a namespace that does not exist, ends the whole run with the
    [HTTPError] of that status after this one request: no empty report is
    produced in its place. *)
Theorem unknown_namespace_aborts (st : state) (code : Z) :
  NAMESPACE <> "system" ->
  error_status (reply_to (loadbalancers_url (VStr NAMESPACE)) st) = Some code ->
  main_script st
  = (Err (HTTPError code), after (loadbalancers_url (VStr NAMESPACE)) st).
Proof.
  intros N E. unfold main_script. cbv zeta.
  rewrite (bind_ok _ _ _ _ _ (get_namespaces_explicit st N)).
  cbn [for_each]. unfold export_ns. rewrite bind_bind.
  apply bind_err. rewrite get_http_loadbalancers_run.
  now rewrite (error_status_fetch _ _ E).
Qed.

(** X5.  When the enumeration of the namespaces delivers no item, the
    run returns no row after that one request; and a namespace whose
    listing delivers no item leaves the rows collected so far as they are
    after its one request. *)
Theorem empty_listings_yield_no_rows (st : state) (body : value) :
  (NAMESPACE = "system" ->
   delivers (reply_to namespaces_url st) body ->
   listed_items body = Ok [] ->
   main_script st = (Ok [], after namespaces_url st))
  /\ (forall ns all_rows,
        delivers (reply_to (loadbalancers_url ns) st) body ->
        listed_items body = Ok [] ->
        export_ns ns all_rows st = (Ok all_rows, after (loadbalancers_url ns) st)).
Proof.
  split.
  - intros S D L. apply fetch_outcome_ok in D. unfold main_script. cbv zeta.
    assert (G : get_namespaces st = (Ok [], after namespaces_url st)).
    { rewrite (get_namespaces_run st S), D, L. reflexivity. }
    now rewrite (bind_ok _ _ _ _ _ G).
  - intros ns all_rows D L. apply fetch_outcome_ok in D. unfold export_ns.
    assert (G : get_http_loadbalancers ns st
                = (Ok [], after (loadbalancers_url ns) st)).
    { rewrite get_http_loadbalancers_run, D, L. reflexivity. }
    now rewrite (bind_ok _ _ _ _ _ G).
Qed.

(** X6.  A firewall that the requesting namespace delivers is returned
    with that namespace as its source after exactly one request: [shared]
    is not consulted, whatever it holds and even when the delivered object
    is empty. *)
Theorem local_firewall_shadows_shared
  (namespace waf_name body : value) (st : state) :
  Py.truthy waf_name = true ->
  delivers (reply_to (firewall_url namespace waf_name) st) body ->
  get_app_firewall_details namespace waf_name st
  = (Ok (body, namespace), after (firewall_url namespace waf_name) st)
  /\ log (after (firewall_url namespace waf_name) st)
     = (log st ++ [(firewall_url namespace waf_name,
                    reply_to (firewall_url namespace waf_name) st)])%list.
Proof.
  intros T D. split; [|reflexivity].
  rewrite locate_run, T. cbn [negb]. cbv zeta.
  now rewrite (delivers_attempt _ _ namespace D).
Qed.

End Edges.

Lemma unknown_namespace_aborts_witness :
  let H := table_host "nowhere" tenant in
  main_script (start "nowhere" tenant)
  = (Err (HTTPError 404),
     after (loadbalancers_url (VStr "nowhere")) (start "nowhere" tenant)).
Proof.
  cbv zeta.
  apply (unknown_namespace_aborts (H := table_host "nowhere" tenant)
           (start "nowhere" tenant) 404); [discriminate|reflexivity].
Defined.

Lemma empty_listings_yield_no_rows_witness :
  let none := VDict [("items", VList [])] in
  let tbl := [(ns_list_url, found none); (lb_list_url "ns1", found none)] in
  let H := table_host "system" tbl in
  fst (main_script (start "system" tbl)) = Ok []
  /\ fst (export_ns (VStr "ns1") [mk_row "ns0" "lb0" "NA" "waf_disabled" "NA"]
            (start "system" tbl))
     = Ok [mk_row "ns0" "lb0" "NA" "waf_disabled" "NA"].
Proof.
  cbv zeta.
  set (none := VDict [("items", VList [])]).
  set (tbl := [(ns_list_url, found none); (lb_list_url "ns1", found none)]).
  destruct (empty_listings_yield_no_rows (H := table_host "system" tbl)
              (start "system" tbl) none) as [M N].
  assert (D1 : @delivers
                 (@reply_to (table_host "system" tbl)
                    (@namespaces_url (table_host "system" tbl))
                    (start "system" tbl)) none).
  { eexists. split; [reflexivity|]. split; reflexivity. }
  assert (D2 : @delivers
                 (@reply_to (table_host "system" tbl)
                    (@loadbalancers_url (table_host "system" tbl) (VStr "ns1"))
                    (start "system" tbl)) none).
  { eexists. split; [reflexivity|]. split; reflexivity. }
  split.
  - rewrite (M eq_refl D1 eq_refl). reflexivity.
  - rewrite (N (VStr "ns1") _ D2 eq_refl). reflexivity.
Defined.

Lemma local_firewall_shadows_shared_witness :
  let empty_object := VDict [] in
  let tbl := [(fw_url "ns1" "fw1", found empty_object);
              (fw_url "shared" "fw1", found (firewall "fw1" [("blocking", VDict [])]))] in
  let H := table_host "ns1" tbl in
  fst (get_app_firewall_details (VStr "ns1") (VStr "fw1") (start "ns1" tbl))
  = Ok (empty_object, VStr "ns1")
  /\ map fst (log (snd (get_app_firewall_details (VStr "ns1") (VStr "fw1")
                          (start "ns1" tbl))))
     = [fw_url "ns1" "fw1"].
Proof.
  cbv zeta.
  set (tbl := [(fw_url "ns1" "fw1", found (VDict []));
               (fw_url "shared" "fw1",
                found (firewall "fw1" [("blocking", VDict [])]))]).
  assert (D : @delivers
                (@reply_to (table_host "ns1" tbl)
                   (@firewall_url (table_host "ns1" tbl) (VStr "ns1") (VStr "fw1"))
                   (start "ns1" tbl)) (VDict [])).
  { eexists. split; [reflexivity|]. split; reflexivity. }
  destruct (local_firewall_shadows_shared (H := table_host "ns1" tbl)
              (VStr "ns1") (VStr "fw1") (VDict []) (start "ns1" tbl) eq_refl D)
    as [E L].
  rewrite E. split; [reflexivity|]. cbn [snd]. rewrite L. reflexivity.
Defined.

(** ** The requests of the resolver *)

Section RequestsMade.

Context `{Host}.

Lemma ro_ret {A} P (a : A) : requests_only P (ret a).
Proof. intros st. exists []. cbn. now rewrite app_nil_r. Qed.

Lemma ro_raise {A} P e : requests_only P (@raise _ A e).
Proof. intros st. exists []. cbn. now rewrite app_nil_r. Qed.

Lemma ro_lift {A} P (r : result A) : requests_only P (lift r).
Proof. destruct r; [apply ro_ret|apply ro_raise]. Qed.

Lemma ro_bind {A B} P (m : M A) (k : A -> M B) :
  requests_only P m ->
  (forall a, requests_only P (k a)) ->
  requests_only P (bind m k).
Proof.
  intros Pm Pk st. destruct (Pm st) as (new1 & L1 & F1).
  unfold bind. destruct (m st) as [[a|e] st1]; cbn [fst snd] in *.
  - destruct (Pk a st1) as (new2 & L2 & F2).
    exists (new1 ++ new2)%list. split.
    + rewrite L2, L1. now rewrite app_assoc.
    + apply Forall_app. now split.
  - now exists new1.
Qed.

Lemma ro_lift_bind {A B} P (r : result A) (k : A -> M B) :
  (forall a, r = Ok a -> requests_only P (k a)) ->
  requests_only P (bind (lift r) k).
Proof.
  intros Pk. destruct r as [a|e].
  - intros st. unfold bind. cbn. now apply Pk.
  - intros st. exists []. cbn. now rewrite app_nil_r.
Qed.

Lemma ro_mono {A} (P Q : string -> Prop) (m : M A) :
  (forall url, P url -> Q url) -> requests_only P m -> requests_only Q m.
Proof.
  intros I Pm st. destruct (Pm st) as (new & L & F). exists new.
  split; [exact L|]. eapply Forall_impl; [|exact F]. intros entry. apply I.
Qed.

Lemma ro_for_each {A S} P (body : A -> S -> M S) l :
  (forall x acc, requests_only P (body x acc)) ->
  forall acc, requests_only P (for_each body l acc).
Proof.
  intros Pb. induction l as [|x xs IH]; intros acc; cbn [for_each].
  - apply ro_ret.
  - apply ro_bind; [apply Pb|exact IH].
Qed.

Lemma am_ret {A} (a : A) : requests_at_most 0 (ret a).
Proof. intros st. exists []. cbn. now rewrite app_nil_r. Qed.

Lemma am_lift {A} (r : result A) : requests_at_most 0 (lift r).
Proof.
  intros st. exists []. rewrite lift_run. cbn. now rewrite app_nil_r.
Qed.

Lemma am_weaken {A} (a b : nat) (m : M A) :
  (a <= b)%nat -> requests_at_most a m -> requests_at_most b m.
Proof.
  intros Le Pm st. destruct (Pm st) as (new & L & B). exists new.
  split; [exact L|lia].
Qed.

Lemma am_bind {A B} (a b : nat) (m : M A) (k : A -> M B) :
  requests_at_most a m ->
  (forall x, requests_at_most b (k x)) ->
  requests_at_most (a + b) (bind m k).
Proof.
  intros Pm Pk st. destruct (Pm st) as (new1 & L1 & B1).
  unfold bind. destruct (m st) as [[x|e] st1]; cbn [fst snd] in *.
  - destruct (Pk x st1) as (new2 & L2 & B2).
    exists (new1 ++ new2)%list. split.
    + rewrite L2, L1. now rewrite app_assoc.
    + rewrite length_app. lia.
  - exists new1. split; [exact L1|lia].
Qed.

Lemma am_lift_bind {A B} (n : nat) (r : result A) (k : A -> M B) :
  (forall a, r = Ok a -> requests_at_most n (k a)) ->
  requests_at_most n (bind (lift r) k).
Proof.
  intros Pk. destruct r as [a|e].
  - intros st. unfold bind. cbn. now apply Pk.
  - intros st. exists []. cbn. rewrite app_nil_r. split; [reflexivity|lia].
Qed.

Lemma am_for_each {A S} (b : nat) (body : A -> S -> M S) l :
  (forall x acc, requests_at_most b (body x acc)) ->
  forall acc, requests_at_most (List.length l * b) (for_each body l acc).
Proof.
  intros Pb. induction l as [|x xs IH]; intros acc; cbn [for_each].
  - apply am_ret.
  - cbn [List.length Nat.mul]. apply am_bind; [apply Pb|exact IH].
Qed.

(** What the locator requests, and how much. *)
Lemma locate_requests namespace waf_name st :
  exists new,
    log (snd (get_app_firewall_details namespace waf_name st))
    = (log st ++ new)%list
    /\ Forall (fun entry => firewall_lookup_of namespace (fst entry)) new
    /\ (List.length new <= 2)%nat.
Proof.
  rewrite locate_run. destruct (Py.truthy waf_name); cbn [negb].
  2:{ exists []. cbn. rewrite app_nil_r. repeat split; [constructor|lia]. }
  cbv zeta.
  set (url := firewall_url namespace waf_name).
  set (shared_url := shared_firewall_url waf_name).
  assert (P1 : firewall_lookup_of namespace url) by (exists waf_name; now left).
  assert (P2 : firewall_lookup_of namespace shared_url)
    by (exists waf_name; now right).
  assert (One : forall r : result (value * value),
             exists new,
               log (snd (r, after url st)) = (log st ++ new)%list
               /\ Forall (fun entry => firewall_lookup_of namespace (fst entry))
                    new
               /\ (List.length new <= 2)%nat).
  { intros r. exists [(url, reply_to url st)].
    repeat split; [now repeat constructor|cbn; lia]. }
  assert (Two : forall r : result (value * value),
             exists new,
               log (snd (r, after shared_url (after url st)))
               = (log st ++ new)%list
               /\ Forall (fun entry => firewall_lookup_of namespace (fst entry))
                    new
               /\ (List.length new <= 2)%nat).
  { intros r.
    exists [(url, reply_to url st);
            (shared_url, reply_to shared_url (after url st))].
    repeat split; [cbn; now rewrite <- app_assoc|now repeat constructor|cbn; lia]. }
  destruct (attempt (reply_to url st) namespace) as [[r|]|e]; try apply One.
  destruct (Py.is_str "shared" namespace); [apply One|].
  destruct (attempt (reply_to shared_url (after url st)) (VStr "shared"))
    as [[r|]|e]; apply Two.
Qed.

Lemma ro_locate namespace waf_name :
  requests_only (firewall_lookup_of namespace)
    (get_app_firewall_details namespace waf_name).
Proof.
  intros st. destruct (locate_requests namespace waf_name st) as (new & L & F & _).
  now exists new.
Qed.

Lemma am_locate namespace waf_name :
  requests_at_most 2 (get_app_firewall_details namespace waf_name).
Proof.
  intros st. destruct (locate_requests namespace waf_name st) as (new & L & _ & B).
  now exists new.
Qed.

Lemma am_zero_bind {A B} (n : nat) (m : M A) (k : A -> M B) :
  requests_at_most 0 m ->
  (forall x, requests_at_most n (k x)) ->
  requests_at_most n (bind m k).
Proof. exact (am_bind 0 n m k). Qed.

Lemma am_bind_zero {A B} (n : nat) (m : M A) (k : A -> M B) :
  requests_at_most n m ->
  (forall x, requests_at_most 0 (k x)) ->
  requests_at_most n (bind m k).
Proof.
  intros Pm Pk. apply (am_weaken (n + 0) n); [lia|]. now apply am_bind.
Qed.

Ltac ro_step :=
  first
    [ apply ro_ret
    | apply ro_raise
    | apply ro_lift
    | apply ro_locate
    | apply ro_bind; [|intros]
    | match goal with
      | |- requests_only _ (if ?b then _ else _) => destruct b
      | |- requests_only _ (match ?p with (_, _) => _ end) => destruct p
      end ].

Ltac am_zero :=
  repeat first
    [ apply am_ret
    | apply am_lift
    | apply am_zero_bind; [|intros]
    | match goal with
      | |- requests_at_most _ (if ?b then _ else _) => destruct b
      | |- requests_at_most _ (match ?p with (_, _) => _ end) => destruct p
      end ].

Lemma ro_default_binding namespace spec :
  requests_only (firewall_lookup_of namespace) (default_binding namespace spec).
Proof. unfold default_binding. repeat ro_step. Qed.

Lemma ro_route_row namespace lb_name dn dm route :
  requests_only (firewall_lookup_of namespace)
    (route_row namespace lb_name dn dm route).
Proof. unfold route_row, route_binding. repeat ro_step. Qed.

Lemma am_default_binding namespace spec :
  requests_at_most 2 (default_binding namespace spec).
Proof.
  unfold default_binding.
  apply am_lift_bind. intros disabled _.
  apply am_zero_bind; [am_zero|]. intros unset.
  destruct unset; [apply (am_weaken 0); [lia|apply am_ret]|].
  apply am_lift_bind. intros app_firewall _.
  apply am_lift_bind. intros name _.
  apply am_bind_zero.
  - destruct (Py.truthy name);
      [apply am_locate|apply (am_weaken 0); [lia|apply am_ret]].
  - intros [info source_ns]. am_zero.
Qed.

Lemma am_route_row namespace lb_name dn dm route :
  requests_at_most 2 (route_row namespace lb_name dn dm route).
Proof.
  unfold route_row.
  apply am_lift_bind. intros simple_route _.
  apply am_lift_bind. intros advanced_options _.
  apply am_lift_bind. intros route_path _.
  apply am_bind_zero; [|intros [n m]; apply am_ret].
  unfold route_binding.
  apply am_lift_bind. intros disabled _.
  destruct disabled; [apply (am_weaken 0); [lia|apply am_ret]|].
  apply am_lift_bind. intros named _.
  destruct named; [|apply (am_weaken 0); [lia|apply am_ret]].
  apply am_lift_bind. intros app_firewall _.
  apply am_lift_bind. intros waf_name _.
  apply am_bind_zero; [apply am_locate|].
  intros [info source_ns]. am_zero.
Qed.

(** X7.  Whatever the configuration and the answers of the server,
    [extract_waf_rows] only issues firewall lookups, and only in the
    namespace under which the configuration reports itself and in
    [shared]: it reads no other namespace and calls no listing. *)
Theorem resolver_only_looks_up_firewalls (lb_details : value) :
  requests_only
    (fun url =>
       exists namespace,
         reported_namespace lb_details = Ok namespace
         /\ firewall_lookup_of namespace url)
    (extract_waf_rows lb_details).
Proof.
  unfold extract_waf_rows. cbv zeta.
  destruct (Py.truthy lb_details); cbn [negb]; [|apply ro_ret].
  apply ro_lift_bind. intros metadata Em.
  apply ro_lift_bind. intros namespace En.
  assert (R : reported_namespace lb_details = Ok namespace).
  { unfold reported_namespace. now rewrite Em. }
  apply (ro_mono (firewall_lookup_of namespace)).
  { intros url F. now exists namespace. }
  repeat first [apply ro_default_binding | apply ro_route_row
               | apply ro_for_each; intros | ro_step].
Qed.

(** X8.  The locator issues at most two requests, and
    [extract_waf_rows] at most two for the default binding and two per
    route: nothing is retried, and no request is made for a route beyond
    the lookup of its own override. *)
Theorem resolver_request_budget :
  (forall namespace waf_name,
     requests_at_most 2 (get_app_firewall_details namespace waf_name))
  /\ (forall lb_details routes,
        routes_of lb_details = Ok routes ->
        requests_at_most (2 * (1 + List.length routes))
          (extract_waf_rows lb_details)).
Proof.
  split; [exact am_locate|].
  intros lb_details routes R. unfold extract_waf_rows. cbv zeta.
  destruct (Py.truthy lb_details); cbn [negb];
    [|apply (am_weaken 0); [lia|apply am_ret]].
  apply am_lift_bind. intros metadata _.
  apply am_lift_bind. intros namespace _.
  apply am_lift_bind. intros metadata' _.
  apply am_lift_bind. intros lb_name _.
  apply am_lift_bind. intros spec Es.
  apply (am_weaken (2 + List.length routes * 2)); [lia|].
  apply am_bind; [apply am_default_binding|]. intros [dn dm].
  apply am_lift_bind. intros routes0 Er.
  apply am_lift_bind. intros routes1 Er'.
  assert (routes1 = routes) as ->.
  { unfold routes_of in R. rewrite Es, Er, Er' in R. now inversion R. }
  apply am_for_each. intros route rows.
  apply am_bind_zero; [apply am_route_row|intros; apply am_ret].
Qed.

End RequestsMade.

Lemma resolver_only_looks_up_firewalls_witness :
  let H := table_host "system" tenant in
  map fst (log (snd (extract_waf_rows tenant_lb1 (start "system" tenant))))
  = [fw_url "ns1" "fw1"; fw_url "ns1" "fw2"; fw_url "shared" "fw2"]
  /\ Forall
       (fun entry =>
          exists namespace,
            reported_namespace tenant_lb1 = Ok namespace
            /\ firewall_lookup_of namespace (fst entry))
       (log (snd (extract_waf_rows tenant_lb1 (start "system" tenant)))).
Proof.
  cbv zeta. split; [reflexivity|].
  destruct (resolver_only_looks_up_firewalls (H := table_host "system" tenant)
              tenant_lb1 (start "system" tenant)) as (new & L & F).
  rewrite (L : _ = new). exact F.
Defined.

Lemma resolver_request_budget_witness :
  let H := table_host "system" tenant in
  exists new,
    log (snd (extract_waf_rows tenant_lb1 (start "system" tenant))) = new
    /\ (List.length new <= 10)%nat.
Proof.
  cbv zeta.
  destruct (proj2 (resolver_request_budget (H := table_host "system" tenant))
              tenant_lb1
              [route [("prefix", VStr "/")] [];
               route [("prefix", VStr "/api")]
                 [("app_firewall", VDict [("name", VStr "fw2")])];
               route [("regex", VStr "^/static/.*")] [("disable_waf", VDict [])];
               route [("prefix", VStr "/")] []]
              eq_refl (start "system" tenant)) as (new & L & B).
  exists new. split; [exact L|exact B].
Defined.

(** ** The rows of a load balancer, field by field *)

Section Fields.

Context `{Host}.

(** A successful [route_row], taken apart. *)
Lemma route_row_inv namespace lb_name dn dm route st r st' :
  route_row namespace lb_name dn dm route st = (Ok r, st') ->
  exists simple_route ao route_path n m,
    simple_route_of route = Ok simple_route
    /\ advanced_options_of simple_route = Ok ao
    /\ route_path_of simple_route = Ok route_path
    /\ route_binding namespace dn dm ao st = (Ok (n, m), st')
    /\ r = {| row_namespace := namespace; row_lb_name := lb_name;
              row_route := route_path; row_waf_name := n;
              row_waf_mode := m |}.
Proof.
  intros E. unfold route_row in E.
  invert_pure E simple_route Es.
  invert_pure E ao Ea.
  invert_pure E route_path Ep.
  invert_bind E b st1 Eb. destruct b as [n m]. inversion E; subst.
  now exists simple_route, ao, route_path, n, m.
Qed.

(** A successful [route_binding] went through one of its three branches. *)
Lemma route_binding_inv namespace dn dm ao st n m st' :
  route_binding namespace dn dm ao st = (Ok (n, m), st') ->
  (Py.contains "disable_waf" ao = Ok true
   /\ (n, m) = (VStr "waf_disabled", "NA") /\ st' = st)
  \/ (Py.contains "disable_waf" ao = Ok false
      /\ names_override ao = Ok false
      /\ (n, m) = (Py.or_else dn (VStr "waf_disabled"), Py.str_or dm "NA")
      /\ st' = st)
  \/ (Py.contains "disable_waf" ao = Ok false
      /\ names_override ao = Ok true
      /\ exists name info source_ns,
           override_name ao = Ok name
           /\ get_app_firewall_details namespace name st
              = (Ok (info, source_ns), st')
           /\ ((Py.truthy info = false /\ (n, m) = (VStr "waf_disabled", "NA"))
               \/ (Py.truthy info = true
                   /\ get_waf_mode info = Ok m
                   /\ (if Py.is_str "shared" source_ns
                       then Py.iadd_str name " (shared)"
                       else Ok name) = Ok n))).
Proof.
  intros E. unfold route_binding in E.
  invert_pure E disabled Ed. destruct disabled.
  { left. inversion E. auto. }
  right. invert_pure E named En. destruct named.
  2:{ left. inversion E. auto. }
  right. split; [exact Ed|]. split; [exact En|].
  invert_pure E app_firewall Ef.
  invert_pure E name Ename.
  invert_bind E p st1 El. destruct p as [info source_ns].
  exists name, info, source_ns. split.
  { unfold override_name. now rewrite Ef. }
  destruct (Py.truthy info) eqn:T; cbn [negb] in E.
  - invert_pure E mode Em.
    destruct (Py.is_str "shared" source_ns).
    + invert_pure E shown Es. inversion E; subst. split; [exact El|].
      right. auto.
    + cbn in E. inversion E; subst. split; [exact El|]. right. auto.
  - inversion E; subst. split; [exact El|]. left. auto.
Qed.

Lemma route_advanced_options_eq route simple_route ao :
  simple_route_of route = Ok simple_route ->
  advanced_options_of simple_route = Ok ao ->
  route_advanced_options route = Ok ao.
Proof. intros Es Ea. unfold route_advanced_options. now rewrite Es. Qed.

(** A loop body that leaves the state alone leaves it alone for the whole
    list. *)
Lemma map_m_frame {A B} (f : A -> M B) (Q : B -> Prop) l :
  (forall x y s s', In x l -> f x s = (Ok y, s') -> s' = s /\ Q y) ->
  forall st ys st',
    map_m f l st = (Ok ys, st') -> st' = st /\ Forall Q ys.
Proof.
  induction l as [|x xs IH]; intros F st ys st' E.
  - cbn in E. inversion E. auto.
  - cbn [map_m] in E.
    invert_bind E y st1 Ey. invert_bind E ys' st2 Eys. inversion E; subst.
    destruct (F x y st st1 (or_introl eq_refl) Ey) as [-> Qy].
    destruct (IH (fun x' y' s s' I => F x' y' s s' (or_intror I)) _ _ _ Eys)
      as [-> Qs].
    auto.
Qed.

(** X9.  A load balancer whose [spec] carries the disable marker, with or
    without a default firewall reference beside it, and whose routes each
    carry a disable marker or name no override, is resolved without a
    single request, and every row it yields is [(waf_disabled, NA)]. *)
Theorem disabled_lb_is_resolved_offline
  (lb_details spec : value) (routes : list value)
  (st : state) (rows : list row) (st' : state) :
  Py.truthy lb_details = true ->
  Py.get lb_details "spec" (VDict []) = Ok spec ->
  Py.contains "disable_waf" spec = Ok true ->
  routes_of lb_details = Ok routes ->
  (forall route,
     In route routes -> has_disable_marker route \/ ~ has_named_override route) ->
  extract_waf_rows lb_details st = (Ok rows, st') ->
  st' = st
  /\ Forall (fun r => binding_of r = (VStr "waf_disabled", "NA")) rows.
Proof.
  intros T Gs D R NO E.
  destruct (extract_waf_rows_inv _ _ _ _ T E)
    as (metadata & namespace & lb_name & spec' & dn & dm & routes' & rs & st1
        & _ & _ & _ & Gs' & Db & R' & Mrs & ->).
  rewrite Gs in Gs'. inversion Gs'; subst spec'.
  rewrite R in R'. inversion R'; subst routes'.
  unfold default_binding in Db. rewrite D in Db. cbn in Db.
  inversion Db; subst dn dm st1.
  assert (Fr : forall route r s s',
             In route routes ->
             route_row namespace lb_name (VStr "waf_disabled") "NA" route s
             = (Ok r, s') ->
             s' = s /\ binding_of r = (VStr "waf_disabled", "NA")).
  2:{ destruct (map_m_frame _ _ routes Fr _ _ _ Mrs) as [-> Frs].
      split; [reflexivity|]. constructor; [reflexivity|exact Frs]. }
  intros route r s s' I Er.
  destruct (route_row_inv _ _ _ _ _ _ _ _ Er)
    as (sr & ao & p & n & m & Es & Ea & _ & Eb & ->).
  pose proof (route_advanced_options_eq _ _ _ Es Ea) as Ra.
  destruct (route_binding_inv _ _ _ _ _ _ _ _ Eb)
    as [(_ & B & ->)|[(_ & _ & B & ->)|(Dis & Nam & _)]].
  - inversion B. auto.
  - inversion B. auto.
  - exfalso. destruct (NO route I) as [(ao' & Ra' & Dm)|N].
    + rewrite Ra in Ra'. inversion Ra'; subst ao'.
      rewrite Dis in Dm. discriminate Dm.
    + apply N. now exists ao.
Qed.

(** X10.  Whatever the default binding resolved to (a firewall, a
    firewall found in [shared], or the disabled binding), every route that
    carries neither a disable marker nor a named override gets a row with
    the (firewall name, mode) pair of the default row, position by
    position. *)
Theorem routes_inherit_resolved_default
  (lb_details : value) (routes : list value)
  (st : state) (rows : list row) (st' : state) :
  Py.truthy lb_details = true ->
  routes_of lb_details = Ok routes ->
  extract_waf_rows lb_details st = (Ok rows, st') ->
  exists d route_rows,
    rows = d :: route_rows
    /\ Forall2
         (fun route r =>
            ~ has_disable_marker route ->
            ~ has_named_override route ->
            binding_of r = binding_of d)
         routes route_rows.
Proof.
  intros T R E.
  destruct (extract_waf_rows_inv _ _ _ _ T E)
    as (metadata & namespace & lb_name & spec & dn & dm & routes' & rs & st1
        & _ & _ & _ & _ & _ & R' & Mrs & ->).
  rewrite R in R'. inversion R'; subst routes'.
  eexists. exists rs. split; [reflexivity|].
  pose proof (map_m_inv _ _ _ _ _ Mrs) as F.
  eapply Forall2_impl; [|exact F].
  intros route r (s & s' & Er) ND NO. cbv beta.
  eapply route_row_inherits; eauto.
Qed.

(** X11.  A route that names an override firewall for which the locator
    returns no object or an empty one gets the row [(waf_disabled, NA)],
    whatever the default binding of its load balancer is. *)
Theorem unresolved_override_disables_route
  (namespace lb_name dn : value) (dm : string) (route ao name info source_ns : value)
  (st : state) (r : row) (st' : state) :
  route_advanced_options route = Ok ao ->
  Py.contains "disable_waf" ao = Ok false ->
  names_override ao = Ok true ->
  override_name ao = Ok name ->
  fst (get_app_firewall_details namespace name st) = Ok (info, source_ns) ->
  Py.truthy info = false ->
  route_row namespace lb_name dn dm route st = (Ok r, st') ->
  binding_of r = (VStr "waf_disabled", "NA")
  /\ st' = snd (get_app_firewall_details namespace name st).
Proof.
  intros Ra D N On L T Er.
  destruct (route_row_inv _ _ _ _ _ _ _ _ Er)
    as (sr & ao' & p & n & m & Es & Ea & _ & Eb & ->).
  rewrite (route_advanced_options_eq _ _ _ Es Ea) in Ra.
  inversion Ra; subst ao'.
  destruct (route_binding_inv _ _ _ _ _ _ _ _ Eb)
    as [(Dis & _)|[(_ & Nam & _)|(_ & _ & name' & info' & src' & On' & L' & B)]].
  - rewrite D in Dis. discriminate Dis.
  - rewrite N in Nam. discriminate Nam.
  - rewrite On in On'. inversion On'; subst name'.
    rewrite L' in L. cbn in L. inversion L; subst info' src'.
    rewrite L'. cbn [snd]. split; [|reflexivity].
    destruct B as [(_ & B)|(T' & _)].
    + now inversion B.
    + rewrite T in T'. discriminate T'.
Qed.

Lemma route_row_identity namespace lb_name dn dm route st r st' :
  route_row namespace lb_name dn dm route st = (Ok r, st') ->
  row_namespace r = namespace /\ row_lb_name r = lb_name.
Proof.
  intros Er.
  destruct (route_row_inv _ _ _ _ _ _ _ _ Er)
    as (sr & ao & p & n & m & _ & _ & _ & _ & ->).
  auto.
Qed.

(** X12.  Every row of a load balancer, the default row and the route
    rows alike, carries the namespace and the name found in the [metadata]
    of its configuration, which are the empty string when [metadata] or
    the key is missing; the namespace under which the load balancer was
    listed plays no part. *)
Theorem rows_carry_reported_identity
  (lb_details : value) (st : state) (rows : list row) (st' : state) :
  Py.truthy lb_details = true ->
  extract_waf_rows lb_details st = (Ok rows, st') ->
  exists namespace lb_name,
    reported_namespace lb_details = Ok namespace
    /\ reported_name lb_details = Ok lb_name
    /\ Forall (fun r => row_namespace r = namespace /\ row_lb_name r = lb_name)
         rows
    /\ (forall d,
          lb_details = VDict d -> Py.assoc "metadata" d = None ->
          namespace = VStr "" /\ lb_name = VStr "").
Proof.
  intros T E.
  destruct (extract_waf_rows_inv _ _ _ _ T E)
    as (metadata & namespace & lb_name & spec & dn & dm & routes & rs & st1
        & Gm & Gn & Gl & _ & _ & _ & Mrs & ->).
  exists namespace, lb_name.
  split; [unfold reported_namespace; now rewrite Gm|].
  split; [unfold reported_name; now rewrite Gm|].
  split.
  - constructor; [split; reflexivity|].
    pose proof (map_m_inv _ _ _ _ _ Mrs) as F.
    eapply Forall2_Forall_r; [exact F|].
    intros route r _ (s & s' & Er). cbv beta.
    eapply route_row_identity. exact Er.
  - intros d -> A. cbn in Gm. rewrite A in Gm. inversion Gm; subst metadata.
    cbn in Gn, Gl. inversion Gn. inversion Gl. auto.
Qed.

Lemma append_nonempty_l (a b : string) : a <> "" -> a ++ b <> "".
Proof. destruct a; [contradiction|discriminate]. Qed.

Lemma append_nonempty_r (a b : string) : b <> "" -> a ++ b <> "".
Proof. destruct a; [now cbn|discriminate]. Qed.

Lemma join_nonempty sep p ps : p <> "" -> Py.join sep (p :: ps) <> "".
Proof.
  intros N. destruct ps as [|q ps]; cbn [Py.join]; [exact N|].
  now apply append_nonempty_l.
Qed.

Lemma route_path_nonempty simple_route route_path :
  route_path_of simple_route = Ok route_path -> route_path <> "".
Proof.
  unfold route_path_of.
  destruct (Py.get simple_route "path" (VDict [])) as [path_info|e];
    [|discriminate].
  destruct (Py.truthy path_info) eqn:T.
  - destruct (Py.items path_info) as [kvs|e] eqn:I; [|discriminate].
    destruct path_info; try discriminate I. cbn in I. inversion I; subst d.
    destruct kvs as [|kv kvs]; [discriminate T|].
    intros E. injection E as <-.
    change (Py.join "; "
              ((fst kv ++ "=" ++ format (snd kv))
               :: map (fun kv => fst kv ++ "=" ++ format (snd kv)) kvs)
            <> "").
    apply join_nonempty.
    apply append_nonempty_r. discriminate.
  - intros E. inversion E. discriminate.
Qed.

Lemma get_waf_mode_known info mode :
  get_waf_mode info = Ok mode -> known_mode mode.
Proof.
  unfold get_waf_mode, known_mode.
  destruct (Py.truthy info); cbn [negb].
  - destruct (Py.get info "spec" (VDict [])) as [spec|e]; [|discriminate].
    destruct (Py.contains "monitoring" spec) as [[|]|e]; try discriminate.
    + intros E. inversion E. auto.
    + destruct (Py.contains "blocking" spec) as [[|]|e]; try discriminate;
        intros E; inversion E; auto.
  - intros E. inversion E. auto.
Qed.

Lemma str_or_NA mode :
  known_mode mode ->
  known_mode (Py.str_or mode "NA") /\ Py.str_or mode "NA" <> "".
Proof.
  unfold Py.str_or. intros K.
  destruct (mode =? "")%string eqn:E.
  - split; [now left|discriminate].
  - split; [exact K|]. intros ->. discriminate E.
Qed.

Lemma or_else_truthy a b :
  Py.truthy b = true -> Py.truthy (Py.or_else a b) = true.
Proof. intros T. unfold Py.or_else. now destruct (Py.truthy a) eqn:E. Qed.

Lemma iadd_str_truthy v suffix shown :
  Py.truthy v = true -> Py.iadd_str v suffix = Ok shown ->
  Py.truthy shown = true.
Proof.
  destruct v; try discriminate; cbn; intros T E; inversion E; subst; cbn.
  - destruct s; [discriminate T|reflexivity].
  - destruct l; [discriminate T|reflexivity].
Qed.

Lemma names_override_name ao name :
  names_override ao = Ok true -> override_name ao = Ok name ->
  Py.truthy name = true.
Proof.
  unfold names_override, override_name.
  destruct (Py.contains "app_firewall" ao) as [[|]|e]; try discriminate.
  destruct (Py.getitem ao "app_firewall") as [fw|e]; [|discriminate].
  destruct fw; try discriminate. cbn.
  destruct (Py.assoc "name" d) as [n|]; [|discriminate].
  intros T E. inversion T. inversion E. now subst.
Qed.

Lemma default_binding_known namespace spec st dn dm st1 :
  default_binding namespace spec st = (Ok (dn, dm), st1) -> known_mode dm.
Proof.
  intros E. unfold default_binding in E.
  invert_pure E disabled Ed.
  invert_bind E unset s1 Eu.
  destruct unset; [inversion E; now left|].
  invert_pure E app_firewall Ef.
  invert_pure E name En.
  invert_bind E p s2 El. destruct p as [info source_ns].
  invert_pure E mode Em.
  invert_bind E shown s3 Es. inversion E; subst.
  eapply get_waf_mode_known. exact Em.
Qed.

Lemma route_binding_fields namespace dn dm ao st n m st' :
  known_mode dm ->
  route_binding namespace dn dm ao st = (Ok (n, m), st') ->
  Py.truthy n = true /\ known_mode m.
Proof.
  intros K Eb.
  destruct (route_binding_inv _ _ _ _ _ _ _ _ Eb)
    as [(_ & B & _)|[(_ & _ & B & _)
                    |(_ & N & name & info & src & On & _ & B)]].
  - inversion B. split; [reflexivity|now left].
  - inversion B. split; [now apply or_else_truthy|].
    now apply str_or_NA.
  - destruct B as [(_ & B)|(_ & Gm & Sh)].
    + inversion B. split; [reflexivity|now left].
    + split; [|eapply get_waf_mode_known; exact Gm].
      pose proof (names_override_name _ _ N On) as T.
      destruct (Py.is_str "shared" src).
      * eapply iadd_str_truthy; eassumption.
      * now inversion Sh; subst.
Qed.

(** X13.  In every row of a load balancer the firewall name is non-empty,
    the route descriptor is non-empty, and the mode is one of [NA],
    [monitoring], [blocking] and the empty string; the mode of the default
    row is never the empty string. *)
Theorem row_fields_are_filled
  (lb_details : value) (st : state) (rows : list row) (st' : state) :
  Py.truthy lb_details = true ->
  extract_waf_rows lb_details st = (Ok rows, st') ->
  Forall
    (fun r =>
       Py.truthy (row_waf_name r) = true
       /\ row_route r <> ""
       /\ known_mode (row_waf_mode r))
    rows
  /\ exists d route_rows, rows = d :: route_rows /\ row_waf_mode d <> "".
Proof.
  intros T E.
  destruct (extract_waf_rows_inv _ _ _ _ T E)
    as (metadata & namespace & lb_name & spec & dn & dm & routes & rs & st1
        & _ & _ & _ & _ & Db & _ & Mrs & ->).
  pose proof (default_binding_known _ _ _ _ _ _ Db) as K.
  destruct (str_or_NA dm K) as [Kd Nd].
  split.
  - constructor.
    + cbn. split; [now apply or_else_truthy|]. split; [discriminate|exact Kd].
    + pose proof (map_m_inv _ _ _ _ _ Mrs) as F.
      eapply Forall2_Forall_r; [exact F|].
      intros route r _ (s & s' & Er). cbv beta.
      destruct (route_row_inv _ _ _ _ _ _ _ _ Er)
        as (sr & ao & p & n & m & _ & _ & Ep & Eb & ->).
      destruct (route_binding_fields _ _ _ _ _ _ _ _ K Eb) as [Tn Km].
      cbn. split; [exact Tn|]. split; [|exact Km].
      eapply route_path_nonempty. exact Ep.
  - eexists. exists rs. split; [reflexivity|exact Nd].
Qed.

End Fields.

Lemma disabled_lb_is_resolved_offline_witness :
  let H := table_host "ns1" tenant in
  let plain := route [("prefix", VStr "/")] [] in
  let both := route [("prefix", VStr "/a")]
                [("disable_waf", VDict []);
                 ("app_firewall", VDict [("name", VStr "fw1")])] in
  let spec := [("disable_waf", VDict []);
               ("app_firewall", VDict [("name", VStr "fw1")]);
               ("routes", VList [plain; both])] in
  snd (extract_waf_rows (lb_config "ns1" "lb1" spec) (start "ns1" tenant))
  = start "ns1" tenant
  /\ Forall (fun r => binding_of r = (VStr "waf_disabled", "NA"))
       [mk_row "ns1" "lb1" "NA" "waf_disabled" "NA";
        mk_row "ns1" "lb1" "prefix=/" "waf_disabled" "NA";
        mk_row "ns1" "lb1" "prefix=/a" "waf_disabled" "NA"].
Proof.
  cbv zeta.
  set (plain := route [("prefix", VStr "/")] []).
  set (both := route [("prefix", VStr "/a")]
                 [("disable_waf", VDict []);
                  ("app_firewall", VDict [("name", VStr "fw1")])]).
  set (spec := [("disable_waf", VDict []);
                ("app_firewall", VDict [("name", VStr "fw1")]);
                ("routes", VList [plain; both])]).
  refine (disabled_lb_is_resolved_offline (H := table_host "ns1" tenant)
            (lb_config "ns1" "lb1" spec) (VDict spec) [plain; both]
            (start "ns1" tenant) _ _ eq_refl eq_refl eq_refl eq_refl _ eq_refl).
  intros r [<-|[<-|[]]].
  - right. intros (ao & R & C). inversion R; subst. discriminate C.
  - left. eexists. split; reflexivity.
Defined.

Lemma routes_inherit_resolved_default_witness :
  let H := table_host "system" tenant in
  exists d route_rows,
    [mk_row "ns2" "lb3" "NA" "fw2 (shared)" "blocking";
     mk_row "ns2" "lb3" "NA" "fw2 (shared)" "blocking"] = d :: route_rows
    /\ Forall2
         (fun route r =>
            ~ has_disable_marker route ->
            ~ has_named_override route ->
            binding_of r = binding_of d)
         [route [] []] route_rows.
Proof.
  cbv zeta.
  exact (routes_inherit_resolved_default (H := table_host "system" tenant)
           tenant_lb3 [route [] []] (start "system" tenant) _
           (snd (extract_waf_rows tenant_lb3 (start "system" tenant)))
           eq_refl eq_refl eq_refl).
Defined.

Lemma unresolved_override_disables_route_witness :
  let H := table_host "system" tenant in
  let ao := [("app_firewall", VDict [("name", VStr "fw9")])] in
  exists r,
    fst (route_row (VStr "ns1") (VStr "lb1") (VStr "fw1") "monitoring"
           (route [("prefix", VStr "/x")] ao) (start "system" tenant)) = Ok r
    /\ binding_of r = (VStr "waf_disabled", "NA").
Proof.
  cbv zeta. eexists. split; [reflexivity|].
  exact (proj1 (unresolved_override_disables_route
                  (H := table_host "system" tenant)
                  (VStr "ns1") (VStr "lb1") (VStr "fw1") "monitoring"
                  (route [("prefix", VStr "/x")]
                     [("app_firewall", VDict [("name", VStr "fw9")])])
                  (VDict [("app_firewall", VDict [("name", VStr "fw9")])])
                  (VStr "fw9") (VDict []) VNone
                  (start "system" tenant) _
                  (snd (route_row (VStr "ns1") (VStr "lb1") (VStr "fw1")
                          "monitoring"
                          (route [("prefix", VStr "/x")]
                             [("app_firewall", VDict [("name", VStr "fw9")])])
                          (start "system" tenant)))
                  eq_refl eq_refl eq_refl eq_refl eq_refl eq_refl eq_refl)).
Defined.

Lemma rows_carry_reported_identity_witness :
  let H := table_host "ns1" [] in
  exists namespace lb_name,
    reported_namespace (VDict [("spec", VDict [])]) = Ok namespace
    /\ reported_name (VDict [("spec", VDict [])]) = Ok lb_name
    /\ Forall (fun r => row_namespace r = namespace /\ row_lb_name r = lb_name)
         [mk_row "" "" "NA" "waf_disabled" "NA"]
    /\ (forall d,
          VDict [("spec", VDict [])] = VDict d ->
          Py.assoc "metadata" d = None ->
          namespace = VStr "" /\ lb_name = VStr "").
Proof.
  cbv zeta.
  exact (rows_carry_reported_identity (H := table_host "ns1" [])
           (VDict [("spec", VDict [])]) (start "ns1" []) _
           (snd (extract_waf_rows (VDict [("spec", VDict [])]) (start "ns1" [])))
           eq_refl eq_refl).
Defined.

Lemma row_fields_are_filled_witness :
  let H := table_host "system" tenant in
  Forall
    (fun r =>
       Py.truthy (row_waf_name r) = true
       /\ row_route r <> ""
       /\ known_mode (row_waf_mode r))
    [mk_row "ns1" "lb1" "NA" "fw1" "monitoring";
     mk_row "ns1" "lb1" "prefix=/" "fw1" "monitoring";
     mk_row "ns1" "lb1" "prefix=/api" "fw2 (shared)" "blocking";
     mk_row "ns1" "lb1" "regex=^/static/.*" "waf_disabled" "NA";
     mk_row "ns1" "lb1" "prefix=/" "fw1" "monitoring"].
Proof.
  cbv zeta.
  exact (proj1 (row_fields_are_filled (H := table_host "system" tenant)
                  tenant_lb1 (start "system" tenant) _
                  (snd (extract_waf_rows tenant_lb1 (start "system" tenant)))
                  eq_refl eq_refl)).
Defined.

(** ** What a successful resolution says about the configuration *)

Section Shapes.

Context `{Host}.

(** X14.  A default firewall reference without a name, or with an empty
    one, is reported as [(waf_disabled, NA)], and no request is made for
    it. *)
Theorem unnamed_default_reference_is_disabled
  (namespace lb_name spec app_firewall name : value) (st : state) :
  Py.contains "disable_waf" spec = Ok false ->
  Py.contains "app_firewall" spec = Ok true ->
  Py.get spec "app_firewall" (VDict []) = Ok app_firewall ->
  Py.get app_firewall "name" VNone = Ok name ->
  Py.truthy name = false ->
  exists dn dm,
    default_binding namespace spec st = (Ok (dn, dm), st)
    /\ binding_of (default_row namespace lb_name dn dm)
       = (VStr "waf_disabled", "NA").
Proof.
  intros D P G Gn T. exists name, "".
  split.
  - unfold default_binding. rewrite D. cbn. rewrite P. cbn.
    rewrite G. cbn. rewrite Gn. cbn [lift].
    unfold bind, ret. rewrite T. reflexivity.
  - unfold binding_of, default_row, Py.or_else.
    cbn [row_waf_name row_waf_mode]. now rewrite T.
Qed.

Lemma get_ok_is_dict v k default x :
  Py.get v k default = Ok x -> exists d, v = VDict d.
Proof. destruct v; try discriminate. intros _. now eexists. Qed.

(** X15.  [extract_waf_rows] returns rows for a non-empty configuration
    only if the configuration and every one of its routes is a
    dictionary: one route of another shape makes the call raise, and the
    rows built before it, the default row included, are not returned. *)
Theorem resolved_routes_are_dictionaries
  (lb_details : value) (routes : list value)
  (st : state) (rows : list row) (st' : state) :
  Py.truthy lb_details = true ->
  routes_of lb_details = Ok routes ->
  extract_waf_rows lb_details st = (Ok rows, st') ->
  (exists d, lb_details = VDict d)
  /\ Forall (fun route => exists d, route = VDict d) routes.
Proof.
  intros T R E.
  destruct (extract_waf_rows_inv _ _ _ _ T E)
    as (metadata & namespace & lb_name & spec & dn & dm & routes' & rs & st1
        & Gm & _ & _ & _ & _ & R' & Mrs & ->).
  rewrite R in R'. inversion R'; subst routes'.
  split; [eapply get_ok_is_dict; exact Gm|].
  pose proof (map_m_inv _ _ _ _ _ Mrs) as F.
  clear - F. induction F as [|route r routes rs (s & s' & Er) F IH];
    constructor; [|exact IH].
  destruct (route_row_inv _ _ _ _ _ _ _ _ Er)
    as (sr & ao & p & n & m & Es & _).
  unfold simple_route_of in Es.
  destruct (Py.get route "simple_route" VNone) as [x|e] eqn:G; [|discriminate].
  eapply get_ok_is_dict. exact G.
Qed.

End Shapes.

Lemma unnamed_default_reference_is_disabled_witness :
  let H := table_host "ns1" tenant in
  exists dn dm,
    default_binding (VStr "ns1") (VDict [("app_firewall", VDict [])])
      (start "ns1" tenant)
    = (Ok (dn, dm), start "ns1" tenant)
    /\ binding_of (default_row (VStr "ns1") (VStr "lb1") dn dm)
       = (VStr "waf_disabled", "NA").
Proof.
  cbv zeta.
  exact (unnamed_default_reference_is_disabled (H := table_host "ns1" tenant)
           (VStr "ns1") (VStr "lb1") (VDict [("app_firewall", VDict [])])
           (VDict []) VNone (start "ns1" tenant)
           eq_refl eq_refl eq_refl eq_refl eq_refl).
Defined.

Lemma resolved_routes_are_dictionaries_witness :
  let H := table_host "system" tenant in
  (exists d, tenant_lb3 = VDict d)
  /\ Forall (fun route => exists d, route = VDict d) [route [] []].
Proof.
  cbv zeta.
  exact (resolved_routes_are_dictionaries (H := table_host "system" tenant)
           tenant_lb3 [route [] []] (start "system" tenant) _
           (snd (extract_waf_rows tenant_lb3 (start "system" tenant)))
           eq_refl eq_refl eq_refl).
Defined.
